(** * go-battlesnake-server: the leveled logger and the HTTP server

    A shallow embedding of package [server] (logger.go and server.go) and of
    the parts of the Go standard library its behaviour rests on: [fmt.Sprintf]
    for the verbs the package uses, the line sink of [log.Logger], the byte
    scanner and the stream decoder of [encoding/json], and the response
    writer, the path cleaning and the request multiplexer of [net/http].

    Go's [int] is modelled as [Z], Go strings as [string] (byte strings), a
    Go pointer as a location in a finite map ([gmap]) or as [option] where
    only nil-ness matters, and the effects of a handler (response writer, log
    sink, heap, the caller's own state) as explicit state passing.  A
    reader is consumed by what reads it.  The server is modelled as the
    [http.Handler] it is ([ServeHTTP]), on the requests the HTTP server hands
    to a handler, with a logger that has a sink and a move function that
    returns; [Start] is modelled up to its call of [http.Serve]. *)

From Stdlib Require Import ZArith String Ascii List Bool Lia DecimalString.
From stdpp Require Import base gmap strings list.

Set Default Proof Using "Type".

(** ** Bytes and strings *)

Definition dquote : ascii := "034"%char.
Definition newline : ascii := "010"%char.

Definition byte (c : ascii) : Z := Z.of_nat (nat_of_ascii c).

Definition str (c : ascii) : string := String c EmptyString.

(** [strings.HasSuffix s (string c)] for a single byte [c]. *)
Fixpoint lastByte (s : string) : option ascii :=
  match s with
  | EmptyString => None
  | String c EmptyString => Some c
  | String _ rest => lastByte rest
  end.

Fixpoint hasPrefix (s p : string) : bool :=
  match p, s with
  | EmptyString, _ => true
  | String a p', String b s' => Ascii.eqb a b && hasPrefix s' p'
  | String _ _, EmptyString => false
  end.

(** ** Go [error] values: the dynamic type and the text of [Error()] *)

Record error := mkError { dynType : string; Error : string }.

Definition io_EOF : error := mkError "*errors.errorString" "EOF".
Definition io_ErrUnexpectedEOF : error := mkError "*errors.errorString" "unexpected EOF".

(** ** fmt.Sprintf

    The operands the package passes to its logger are strings, ints and
    errors.  The model copies literal text, and implements the verbs [%s],
    [%d], [%v] and [%%] with Go's notation for a missing operand, for a verb
    that does not fit its operand, for a lone [%] at the end and for unused
    operands.  Flags, widths, precisions and argument indexes are outside
    the modelled fragment (the byte after [%] is read as the verb), and the
    value of an error under a verb that does not fit is rendered by its
    text. *)

Inductive arg :=
| AString (s : string)
| AInt (n : Z)
| AError (e : error).

Definition itoa (n : Z) : string := NilZero.string_of_int (Z.to_int n).

Definition argType (a : arg) : string :=
  match a with
  | AString _ => "string"
  | AInt _ => "int"
  | AError e => dynType e
  end.

(** The operand under [%v]. *)
Definition argValue (a : arg) : string :=
  match a with
  | AString s => s
  | AInt n => itoa n
  | AError e => Error e
  end.

Definition badVerb (verb : ascii) (a : arg) : string :=
  "%!" +:+ str verb +:+ "(" +:+ argType a +:+ "=" +:+ argValue a +:+ ")".

Definition printArg (verb : ascii) (a : arg) : string :=
  match verb, a with
  | "v"%char, _ => argValue a
  | "s"%char, AString s => s
  | "s"%char, AError e => Error e
  | "d"%char, AInt n => itoa n
  | _, _ => badVerb verb a
  end.

Definition missing (verb : ascii) : string := "%!" +:+ str verb +:+ "(MISSING)".

Fixpoint extraArgs (a : list arg) : string :=
  match a with
  | [] => ""
  | [x] => argType x +:+ "=" +:+ argValue x
  | x :: rest => argType x +:+ "=" +:+ argValue x +:+ ", " +:+ extraArgs rest
  end.

Definition extra (a : list arg) : string :=
  match a with
  | [] => ""
  | _ => "%!(EXTRA " +:+ extraArgs a +:+ ")"
  end.

Fixpoint Sprintf (format : string) (a : list arg) : string :=
  match format with
  | EmptyString => extra a
  | String "%"%char rest =>
      match rest with
      | EmptyString => "%!(NOVERB)" +:+ extra a
      | String "%"%char rest' => String "%"%char (Sprintf rest' a)
      | String verb rest' =>
          match a with
          | [] => missing verb +:+ Sprintf rest' []
          | x :: a' => printArg verb x +:+ Sprintf rest' a'
          end
      end
  | String c rest => String c (Sprintf rest a)
  end.

(** Text without a verb. *)
Fixpoint noPercent (s : string) : bool :=
  match s with
  | EmptyString => true
  | String c rest => negb (Ascii.eqb c "%") && noPercent rest
  end.

(** ** log.Logger

    The sink of a [*log.Logger] is the list of entries written so far, the
    oldest first; [Printf] hands one formatted message to [Output], which
    writes it as one entry (the library frames the entry with the logger's
    prefix and flags and ends it with a newline). *)

Definition log_Printf (format : string) (v : list arg) (out : list string) : list string :=
  out ++ [Sprintf format v].

(** ** logger.go *)

Definition LError : Z := Z.shiftl 1 0.
Definition LWarning : Z := Z.shiftl 1 1.
Definition LInfo : Z := Z.shiftl 1 2.
Definition LDebug : Z := Z.shiftl 1 3.
Definition LDefault : Z := Z.lor (Z.lor LError LWarning) LInfo.

(** The embedded [*log.Logger] is the sink threaded through the methods. *)
Record Logger := mkLogger { opts : Z }.

Definition NewLogger (opts : Z) : Logger := mkLogger opts.

Definition Enabled (l : Logger) (opt : Z) : bool :=
  negb (Z.eqb (Z.land (opts l) opt) 0).

Definition Info (l : Logger) (format : string) (v : list arg) (out : list string) : list string :=
  if negb (Z.eqb (Z.land (opts l) LInfo) 0) then log_Printf ("INFO " +:+ format) v out else out.

Definition Warn (l : Logger) (format : string) (v : list arg) (out : list string) : list string :=
  if negb (Z.eqb (Z.land (opts l) LWarning) 0) then log_Printf ("WARN " +:+ format) v out else out.

Definition Err (l : Logger) (format : string) (v : list arg) (out : list string) : list string :=
  if negb (Z.eqb (Z.land (opts l) LError) 0) then log_Printf ("ERROR " +:+ format) v out else out.

Definition Debug (l : Logger) (format : string) (v : list arg) (out : list string) : list string :=
  if negb (Z.eqb (Z.land (opts l) LDebug) 0) then log_Printf ("DEBUG " +:+ format) v out else out.

(** ** encoding/json: the scanner (scanner.go)

    The scanner is a state machine over bytes: [step] names the current state
    function, [parseState] is the stack of enclosing composite values (the
    innermost first), [endTop] records that the top-level value has ended,
    and [err] the syntax error met.  Offsets are not modelled. *)

Inductive parseKind := parseObjectKey | parseObjectValue | parseArrayValue.

Inductive stepFn :=
| stateBeginValueOrEmpty | stateBeginValue | stateBeginStringOrEmpty | stateBeginString
| stateEndValue | stateEndTop
| stateInString | stateInStringEsc
| stateInStringEscU | stateInStringEscU1 | stateInStringEscU12 | stateInStringEscU123
| stateNeg | state1 | state0 | stateDot | stateDot0 | stateE | stateESign | stateE0
| stateT | stateTr | stateTru
| stateF | stateFa | stateFal | stateFals
| stateN | stateNu | stateNul
| stateError.

Inductive scanCode :=
| scanContinue | scanBeginLiteral | scanBeginObject | scanObjectKey | scanObjectValue
| scanEndObject | scanBeginArray | scanArrayValue | scanEndArray | scanSkipSpace
| scanEnd | scanError.

Record scanner := mkScanner {
  step : stepFn;
  endTop : bool;
  parseState : list parseKind;
  err : option error
}.

Definition maxNestingDepth : Z := 10000.

Definition isSpace (c : ascii) : bool :=
  match c with
  | " "%char | "009"%char | "013"%char | "010"%char => true
  | _ => false
  end.

Definition isDigit (c : ascii) : bool := Z.leb 48 (byte c) && Z.leb (byte c) 57.
Definition isDigit19 (c : ascii) : bool := Z.leb 49 (byte c) && Z.leb (byte c) 57.

Definition isHex (c : ascii) : bool :=
  isDigit c
  || (Z.leb 97 (byte c) && Z.leb (byte c) 102)
  || (Z.leb 65 (byte c) && Z.leb (byte c) 70).

Definition hexDigit (n : Z) : ascii :=
  ascii_of_nat (Z.to_nat (if Z.ltb n 10 then 48 + n else 87 + n)).

(** [quoteChar]: exact for the bytes below 0x80; a byte from 0x80 on is
    written as the escape of its code point (Go prints the printable ones
    of them as themselves). *)
Definition quoteChar (c : ascii) : string :=
  match c with
  | "'"%char => "'\''"
  | "034"%char => String "'"%char (String dquote "'")
  | "\"%char => "'\\'"
  | "007"%char => "'\a'"
  | "008"%char => "'\b'"
  | "012"%char => "'\f'"
  | "010"%char => "'\n'"
  | "013"%char => "'\r'"
  | "009"%char => "'\t'"
  | "011"%char => "'\v'"
  | _ =>
      let n := byte c in
      if Z.ltb n 32 || Z.eqb n 127 then
        "'\x" +:+ str (hexDigit (Z.shiftr n 4)) +:+ str (hexDigit (Z.land n 15)) +:+ "'"
      else if Z.ltb n 128 then "'" +:+ str c +:+ "'"
      else "'\u00" +:+ str (hexDigit (Z.shiftr n 4)) +:+ str (hexDigit (Z.land n 15)) +:+ "'"
  end.

Definition SyntaxError (msg : string) : error := mkError "*json.SyntaxError" msg.

Definition setStep (f : stepFn) (s : scanner) : scanner :=
  mkScanner f (endTop s) (parseState s) (err s).

Definition scanner_error (s : scanner) (c : ascii) (context : string) : scanner * scanCode :=
  (mkScanner stateError (endTop s) (parseState s)
     (Some (SyntaxError ("invalid character " +:+ quoteChar c +:+ " " +:+ context))),
   scanError).

Definition scanner_reset : scanner := mkScanner stateBeginValue false [] None.

Definition pushParseState (s : scanner) (c : ascii) (newParseState : parseKind)
    (successState : scanCode) : scanner * scanCode :=
  let s' := mkScanner (step s) (endTop s) (newParseState :: parseState s) (err s) in
  if Z.leb (Z.of_nat (length (parseState s'))) maxNestingDepth then (s', successState)
  else scanner_error s' c "exceeded max depth".

Definition popParseState (s : scanner) : scanner :=
  match tail (parseState s) with
  | [] => mkScanner stateEndTop true [] (err s)
  | ps => mkScanner stateEndValue (endTop s) ps (err s)
  end.

Definition setTop (k : parseKind) (s : scanner) : scanner :=
  mkScanner (step s) (endTop s) (k :: tail (parseState s)) (err s).

Definition fnEndTop (s : scanner) (c : ascii) : scanner * scanCode :=
  if isSpace c then (s, scanEnd)
  else (fst (scanner_error s c "after top-level value"), scanEnd).

Definition fnEndValue (s : scanner) (c : ascii) : scanner * scanCode :=
  match parseState s with
  | [] => fnEndTop (mkScanner stateEndTop true [] (err s)) c
  | ps :: _ =>
      if isSpace c then (setStep stateEndValue s, scanSkipSpace)
      else
        match ps with
        | parseObjectKey =>
            if Ascii.eqb c ":" then (setStep stateBeginValue (setTop parseObjectValue s), scanObjectKey)
            else scanner_error s c "after object key"
        | parseObjectValue =>
            if Ascii.eqb c "," then (setStep stateBeginString (setTop parseObjectKey s), scanObjectValue)
            else if Ascii.eqb c "}" then (popParseState s, scanEndObject)
            else scanner_error s c "after object key:value pair"
        | parseArrayValue =>
            if Ascii.eqb c "," then (setStep stateBeginValue s, scanArrayValue)
            else if Ascii.eqb c "]" then (popParseState s, scanEndArray)
            else scanner_error s c "after array element"
        end
  end.

Definition fnBeginValue (s : scanner) (c : ascii) : scanner * scanCode :=
  if isSpace c then (s, scanSkipSpace)
  else
    match c with
    | "{"%char => pushParseState (setStep stateBeginStringOrEmpty s) c parseObjectKey scanBeginObject
    | "["%char => pushParseState (setStep stateBeginValueOrEmpty s) c parseArrayValue scanBeginArray
    | "034"%char => (setStep stateInString s, scanBeginLiteral)
    | "-"%char => (setStep stateNeg s, scanBeginLiteral)
    | "0"%char => (setStep state0 s, scanBeginLiteral)
    | "t"%char => (setStep stateT s, scanBeginLiteral)
    | "f"%char => (setStep stateF s, scanBeginLiteral)
    | "n"%char => (setStep stateN s, scanBeginLiteral)
    | _ =>
        if isDigit19 c then (setStep state1 s, scanBeginLiteral)
        else scanner_error s c "looking for beginning of value"
    end.

Definition fnBeginValueOrEmpty (s : scanner) (c : ascii) : scanner * scanCode :=
  if isSpace c then (s, scanSkipSpace)
  else if Ascii.eqb c "]" then fnEndValue s c
  else fnBeginValue s c.

Definition fnBeginString (s : scanner) (c : ascii) : scanner * scanCode :=
  if isSpace c then (s, scanSkipSpace)
  else if Ascii.eqb c dquote then (setStep stateInString s, scanBeginLiteral)
  else scanner_error s c "looking for beginning of object key string".

Definition fnBeginStringOrEmpty (s : scanner) (c : ascii) : scanner * scanCode :=
  if isSpace c then (s, scanSkipSpace)
  else if Ascii.eqb c "}" then fnEndValue (setTop parseObjectValue s) c
  else fnBeginString s c.

Definition fnInString (s : scanner) (c : ascii) : scanner * scanCode :=
  if Ascii.eqb c dquote then (setStep stateEndValue s, scanContinue)
  else if Ascii.eqb c "\" then (setStep stateInStringEsc s, scanContinue)
  else if Z.ltb (byte c) 32 then scanner_error s c "in string literal"
  else (s, scanContinue).

Definition fnInStringEsc (s : scanner) (c : ascii) : scanner * scanCode :=
  match c with
  | "b"%char | "f"%char | "n"%char | "r"%char | "t"%char | "\"%char | "/"%char | "034"%char =>
      (setStep stateInString s, scanContinue)
  | "u"%char => (setStep stateInStringEscU s, scanContinue)
  | _ => scanner_error s c "in string escape code"
  end.

Definition fnHex (next : stepFn) (s : scanner) (c : ascii) : scanner * scanCode :=
  if isHex c then (setStep next s, scanContinue)
  else scanner_error s c "in \u hexadecimal character escape".

Definition fnNeg (s : scanner) (c : ascii) : scanner * scanCode :=
  if Ascii.eqb c "0" then (setStep state0 s, scanContinue)
  else if isDigit19 c then (setStep state1 s, scanContinue)
  else scanner_error s c "in numeric literal".

Definition fn0 (s : scanner) (c : ascii) : scanner * scanCode :=
  if Ascii.eqb c "." then (setStep stateDot s, scanContinue)
  else if Ascii.eqb c "e" || Ascii.eqb c "E" then (setStep stateE s, scanContinue)
  else fnEndValue s c.

Definition fn1 (s : scanner) (c : ascii) : scanner * scanCode :=
  if isDigit c then (setStep state1 s, scanContinue) else fn0 s c.

Definition fnDot (s : scanner) (c : ascii) : scanner * scanCode :=
  if isDigit c then (setStep stateDot0 s, scanContinue)
  else scanner_error s c "after decimal point in numeric literal".

Definition fnDot0 (s : scanner) (c : ascii) : scanner * scanCode :=
  if isDigit c then (s, scanContinue)
  else if Ascii.eqb c "e" || Ascii.eqb c "E" then (setStep stateE s, scanContinue)
  else fnEndValue s c.

Definition fnESign (s : scanner) (c : ascii) : scanner * scanCode :=
  if isDigit c then (setStep stateE0 s, scanContinue)
  else scanner_error s c "in exponent of numeric literal".

Definition fnE (s : scanner) (c : ascii) : scanner * scanCode :=
  if Ascii.eqb c "+" || Ascii.eqb c "-" then (setStep stateESign s, scanContinue)
  else fnESign s c.

Definition fnE0 (s : scanner) (c : ascii) : scanner * scanCode :=
  if isDigit c then (s, scanContinue) else fnEndValue s c.

(** The states inside the literals [true], [false] and [null]. *)
Definition fnLit (want : ascii) (next : stepFn) (context : string)
    (s : scanner) (c : ascii) : scanner * scanCode :=
  if Ascii.eqb c want then (setStep next s, scanContinue)
  else scanner_error s c context.

(** [s.step(s, c)]. *)
Definition scan_step (s : scanner) (c : ascii) : scanner * scanCode :=
  match step s with
  | stateBeginValueOrEmpty => fnBeginValueOrEmpty s c
  | stateBeginValue => fnBeginValue s c
  | stateBeginStringOrEmpty => fnBeginStringOrEmpty s c
  | stateBeginString => fnBeginString s c
  | stateEndValue => fnEndValue s c
  | stateEndTop => fnEndTop s c
  | stateInString => fnInString s c
  | stateInStringEsc => fnInStringEsc s c
  | stateInStringEscU => fnHex stateInStringEscU1 s c
  | stateInStringEscU1 => fnHex stateInStringEscU12 s c
  | stateInStringEscU12 => fnHex stateInStringEscU123 s c
  | stateInStringEscU123 => fnHex stateInString s c
  | stateNeg => fnNeg s c
  | state1 => fn1 s c
  | state0 => fn0 s c
  | stateDot => fnDot s c
  | stateDot0 => fnDot0 s c
  | stateE => fnE s c
  | stateESign => fnESign s c
  | stateE0 => fnE0 s c
  | stateT => fnLit "r" stateTr "in literal true (expecting 'r')" s c
  | stateTr => fnLit "u" stateTru "in literal true (expecting 'u')" s c
  | stateTru => fnLit "e" stateEndValue "in literal true (expecting 'e')" s c
  | stateF => fnLit "a" stateFa "in literal false (expecting 'a')" s c
  | stateFa => fnLit "l" stateFal "in literal false (expecting 'l')" s c
  | stateFal => fnLit "s" stateFals "in literal false (expecting 's')" s c
  | stateFals => fnLit "e" stateEndValue "in literal false (expecting 'e')" s c
  | stateN => fnLit "u" stateNu "in literal null (expecting 'u')" s c
  | stateNu => fnLit "l" stateNul "in literal null (expecting 'l')" s c
  | stateNul => fnLit "l" stateEndValue "in literal null (expecting 'l')" s c
  | stateError => (s, scanError)
  end.

(** [scanner.eof]. *)
Definition scanner_eof (s : scanner) : scanner * scanCode :=
  match err s with
  | Some _ => (s, scanError)
  | None =>
      if endTop s then (s, scanEnd)
      else
        let s' := fst (scan_step s " ") in
        if endTop s' then (s', scanEnd)
        else
          match err s' with
          | Some _ => (s', scanError)
          | None =>
              (mkScanner (step s') (endTop s') (parseState s')
                 (Some (SyntaxError "unexpected end of JSON input")), scanError)
          end
  end.

(** [checkValid], and [json.Valid] on top of it. *)
Fixpoint checkValidFrom (s : scanner) (data : string) : option error :=
  match data with
  | EmptyString => err (fst (scanner_eof s))
  | String c rest =>
      let '(s', code) := scan_step s c in
      match code with
      | scanError => err s'
      | _ => checkValidFrom s' rest
      end
  end.

Definition checkValid (data : string) : option error := checkValidFrom scanner_reset data.

Definition json_Valid (data : string) : bool :=
  match checkValid data with None => true | Some _ => false end.

(** ** encoding/json: the stream decoder (stream.go)

    [Decoder.readValue] on a reader that yields [data] and then [readErr]
    (or end of file): the bytes of the first JSON value of the stream, what
    follows the value being left unread in the buffer. *)

Inductive scanResult :=
| ScanDone (n : nat)
| ScanFail (e : option error)
| ScanMore (s : scanner).

Fixpoint scanValue (s : scanner) (buf : string) (scanp : nat) : scanResult :=
  match buf with
  | EmptyString => ScanMore s
  | String c rest =>
      let '(s', code) := scan_step s c in
      match code with
      | scanEnd => ScanDone scanp
      | scanEndObject | scanEndArray =>
          let '(s'', code') := fnEndValue s' " " in
          match code' with
          | scanEnd => ScanDone (S scanp)
          | _ => scanValue s'' rest (S scanp)
          end
      | scanError => ScanFail (err s')
      | _ => scanValue s' rest (S scanp)
      end
  end.

Fixpoint nonSpace (b : string) : bool :=
  match b with
  | EmptyString => false
  | String c rest => negb (isSpace c) || nonSpace rest
  end.

Definition readValue (data : string) (readErr : option error) : error + string :=
  match scanValue scanner_reset data 0 with
  | ScanDone n => inr (substring 0 n data)
  | ScanFail (Some e) => inl e
  | ScanFail None => inl (SyntaxError "")
  | ScanMore s =>
      match readErr with
      | Some e => inl e
      | None =>
          match snd (scan_step s " ") with
          | scanEnd => inr data
          | _ => if nonSpace data then inl io_ErrUnexpectedEOF else inl io_EOF
          end
      end
  end.

(** ** server.go: the records of the Battlesnake API *)

Record Coord := mkCoord { Coord_X : Z; Coord_Y : Z }.

Record Customizations := mkCustomizations {
  Customizations_Color : string;
  Customizations_Head : string;
  Customizations_Tail : string
}.

Record Battlesnake := mkBattlesnake {
  Battlesnake_ID : string;
  Battlesnake_Name : string;
  Battlesnake_Health : Z;
  Battlesnake_Body : list Coord;
  Battlesnake_Head : Coord;
  Battlesnake_Length : Z;
  Battlesnake_Latency : string;
  Battlesnake_Shout : string;
  Battlesnake_Squad : string;
  Battlesnake_Customizations : Customizations
}.

Record Board := mkBoard {
  Board_Height : Z;
  Board_Width : Z;
  Board_Food : list Coord;
  Board_Hazards : list Coord;
  Board_Snakes : list Battlesnake
}.

Record RoyaleSettings := mkRoyaleSettings { ShrinkEveryNTurns : Z }.

Record SquadSettings := mkSquadSettings {
  AllowBodyCollisions : bool;
  SharedElimination : bool;
  SharedHealth : bool;
  SharedLength : bool
}.

Record RulesetSettings := mkRulesetSettings {
  FoodSpawnChance : Z;
  MinimumFood : Z;
  HazardDamagePerTurn : Z;
  HazardMap : string;
  HazardMapAuthor : string;
  Royale : RoyaleSettings;
  Squad : SquadSettings
}.

Record Ruleset := mkRuleset {
  Ruleset_Name : string;
  Ruleset_Version : string;
  Ruleset_Settings : RulesetSettings
}.

Record Game := mkGame {
  Game_ID : string;
  Game_Ruleset : Ruleset;
  Game_Map : string;
  Game_Source : string;
  Game_Timeout : Z
}.

Record GameState := mkGameState {
  GameState_Game : Game;
  GameState_Turn : Z;
  GameState_Board : Board;
  GameState_You : Battlesnake
}.

Record InfoResponse := mkInfoResponse {
  APIVersion : string;
  Author : string;
  Color : string;
  Head : string;
  Tail : string;
  Version : string
}.

Record MoveResponse := mkMoveResponse { Move : string; Shout : string }.

Definition apiVersion : string := "1".

(** The zero value [GameState{}]. *)
Definition zeroCoord : Coord := mkCoord 0 0.
Definition zeroBattlesnake : Battlesnake :=
  mkBattlesnake "" "" 0 [] zeroCoord 0 "" "" "" (mkCustomizations "" "" "").
Definition zeroGameState : GameState :=
  mkGameState
    (mkGame ""
       (mkRuleset "" ""
          (mkRulesetSettings 0 0 0 "" "" (mkRoyaleSettings 0)
             (mkSquadSettings false false false false)))
       "" "" 0)
    0 (mkBoard 0 0 [] [] []) zeroBattlesnake.

(** ** net/http: requests *)

(** A request body: a reader that stands before [data], yields these
    bytes and then fails with [readErr], or ends when there is none.
    Reading consumes: a read leaves a reader over what it has not taken. *)
Record ReadCloser := mkReadCloser { data : string; readErr : option error }.

(** [io.ReadAll]: the bytes up to the end of the reader, the error it met
    (the end of the input is none), and the reader as the call leaves it, at
    its end. *)
Definition io_ReadAll (b : ReadCloser) : string * option error * ReadCloser :=
  (data b, readErr b, mkReadCloser "" (readErr b)).

(** [io.NopCloser(bytes.NewBuffer(b))]. *)
Definition bytes_NewBuffer (b : string) : ReadCloser := mkReadCloser b None.

(** The fields of [http.Request] the server and its router read; the
    router copies the query to the target of a redirect.  The request is
    one the HTTP server hands to its handler: its body is never nil
    ([net/http] gives a request without a body an empty reader). *)
Record Request := mkRequest {
  Method : string;
  URL_Path : string;
  URL_RawQuery : string;
  RequestURI : string;
  ProtoAtLeast11 : bool;
  Body : ReadCloser
}.

Definition setBody (b : ReadCloser) (r : Request) : Request :=
  mkRequest (Method r) (URL_Path r) (URL_RawQuery r) (RequestURI r) (ProtoAtLeast11 r) b.

Definition setMethod (method : string) (r : Request) : Request :=
  mkRequest method (URL_Path r) (URL_RawQuery r) (RequestURI r) (ProtoAtLeast11 r) (Body r).

(** A request for [path] with the bytes [body] as its body, no query, and
    a request target that is not the asterisk form. *)
Definition http_NewRequest (method path body : string) : Request :=
  mkRequest method path "" "" true (bytes_NewBuffer body).

(** ** net/http: headers *)

Definition validHeaderFieldByte (c : ascii) : bool :=
  let n := byte c in
  (Z.leb 48 n && Z.leb n 57) || (Z.leb 97 n && Z.leb n 122) || (Z.leb 65 n && Z.leb n 90)
  || match c with
     | "!"%char | "#"%char | "$"%char | "%"%char | "&"%char | "'"%char | "*"%char
     | "+"%char | "-"%char | "."%char | "^"%char | "_"%char | "`"%char | "|"%char
     | "~"%char => true
     | _ => false
     end.

Fixpoint validHeaderKey (s : string) : bool :=
  match s with
  | EmptyString => true
  | String c rest => validHeaderFieldByte c && validHeaderKey rest
  end.

Fixpoint canonicalize (upper : bool) (s : string) : string :=
  match s with
  | EmptyString => EmptyString
  | String c rest =>
      let n := byte c in
      let c' :=
        if upper && Z.leb 97 n && Z.leb n 122 then ascii_of_nat (Z.to_nat (n - 32))
        else if negb upper && Z.leb 65 n && Z.leb n 90 then ascii_of_nat (Z.to_nat (n + 32))
        else c in
      String c' (canonicalize (Ascii.eqb c' "-") rest)
  end.

(** [textproto.CanonicalMIMEHeaderKey]. *)
Definition CanonicalMIMEHeaderKey (s : string) : string :=
  if validHeaderKey s then canonicalize true s else s.

Abbreviation Header := (gmap string (list string)).

Definition Header_Set (key value : string) (h : Header) : Header :=
  <[CanonicalMIMEHeaderKey key := [value]]> h.

Definition Header_Get (h : Header) (key : string) : string :=
  match h !! CanonicalMIMEHeaderKey key with
  | Some (v :: _) => v
  | _ => ""
  end.

(** ** net/http: the response writer

    The contract of [http.ResponseWriter], with the bookkeeping of
    [httptest.ResponseRecorder]: the header map is live until the header is
    written, [WriteHeader] writes the header once (a later call changes
    nothing), and [Write] writes the header with status 200 first when it
    has not been written.  [writeErr] is the error every [Write] of the
    data returns on a writer that cannot send (none on a recorder). *)

Record ResponseWriter := mkResponseWriter {
  wroteHeader : bool;
  status : Z;
  header : Header;
  sentHeader : Header;
  body : string;
  writeErr : option error
}.

Definition StatusOK : Z := 200.
Definition StatusBadRequest : Z := 400.
Definition StatusNotFound : Z := 404.
Definition StatusInternalServerError : Z := 500.

Definition httptest_NewRecorder : ResponseWriter :=
  mkResponseWriter false 0 ∅ ∅ "" None.

Definition setHeader (key value : string) (w : ResponseWriter) : ResponseWriter :=
  mkResponseWriter (wroteHeader w) (status w) (Header_Set key value (header w))
    (sentHeader w) (body w) (writeErr w).

Definition WriteHeader (code : Z) (w : ResponseWriter) : ResponseWriter :=
  if wroteHeader w then w
  else mkResponseWriter true code (header w) (header w) (body w) (writeErr w).

Definition Write (b : string) (w : ResponseWriter) : option error * ResponseWriter :=
  let w1 := if wroteHeader w then w else WriteHeader StatusOK w in
  match writeErr w1 with
  | Some e => (Some e, w1)
  | None =>
      (None, mkResponseWriter (wroteHeader w1) (status w1) (header w1) (sentHeader w1)
               (body w1 +:+ b) (writeErr w1))
  end.

(** The response as the client receives it ([ResponseRecorder.Result]). *)
Definition StatusCode (w : ResponseWriter) : Z :=
  if wroteHeader w then status w else StatusOK.

Definition ResponseHeader (w : ResponseWriter) : Header :=
  if wroteHeader w then sentHeader w else header w.

(** [http.Error]. *)
Definition http_Error (w : ResponseWriter) (msg : string) (code : Z) : ResponseWriter :=
  let w1 := setHeader "Content-Type" "text/plain; charset=utf-8" w in
  let w2 := setHeader "X-Content-Type-Options" "nosniff" w1 in
  snd (Write (msg +:+ str newline) (WriteHeader code w2)).

(** ** net/http: path cleaning (path.Clean on a rooted path, cleanPath) *)

Fixpoint split (s : string) : list string :=
  match s with
  | EmptyString => [EmptyString]
  | String c rest =>
      if Ascii.eqb c "/" then EmptyString :: split rest
      else
        match split rest with
        | seg :: segs => String c seg :: segs
        | [] => [str c]
        end
  end.

Definition cleanStep (stack : list string) (seg : string) : list string :=
  if String.eqb seg "" || String.eqb seg "." then stack
  else if String.eqb seg ".." then tail stack
  else seg :: stack.

Fixpoint join (segs : list string) : string :=
  match segs with
  | [] => ""
  | [seg] => seg
  | seg :: rest => seg +:+ "/" +:+ join rest
  end.

Definition path_Clean (p : string) : string :=
  "/" +:+ join (rev (fold_left cleanStep (split p) [])).

Definition cleanPath (p : string) : string :=
  match p with
  | EmptyString => "/"
  | String c _ =>
      let p := if Ascii.eqb c "/" then p else "/" +:+ p in
      let np := path_Clean p in
      match lastByte p with
      | Some "/"%char =>
          if String.eqb np "/" then np
          else if Nat.eqb (String.length p) (String.length np + 1) && hasPrefix p np then p
          else np +:+ "/"
      | _ => np
      end
  end.

(** ** What the embedding leaves to its environment

    The type of the state the caller's move function keeps between calls,
    and three library functions taken as they are: [unmarshal] is
    [decodeState.unmarshal] of the bytes of one JSON value into the handlers'
    [**GameState] (an error, or the pointer left in [state], [None] being
    nil, what the literal [null] leaves there); [quoteString] is the JSON
    string literal [encoding/json] writes for a Go string; [mux_redirect r
    path] is the answer of the handler the router returns when it redirects
    the request [r] to [path], [RedirectHandler(u.String(), code)] for [u]
    the URL of that path and the query of [r]: the escaping of the target
    and the status code are the library's, and nothing is assumed of
    them. *)

Class Env := {
  U : Type;
  unmarshal : string -> error + option GameState;
  quoteString : string -> string;
  mux_redirect : Request -> string -> ResponseWriter -> ResponseWriter
}.

Section Server.

Context `{Env}.

(** ** encoding/json: Decoder.Decode and Encoder.Encode *)

(** [json.NewDecoder(b).Decode(&state)] on the reader [b] as it stands.
    Each handler decodes once and reads its body no further, so what the
    decoder leaves of the reader is not kept. *)
Definition Decode (b : ReadCloser) : error + option GameState :=
  match readValue (data b) (readErr b) with
  | inl e => inl e
  | inr value => unmarshal value
  end.

Definition member (key value : string) : string :=
  str dquote +:+ key +:+ str dquote +:+ ":" +:+ value.

Definition Marshal_MoveResponse (m : MoveResponse) : string :=
  "{" +:+ member "move" (quoteString (Move m))
  +:+ "," +:+ member "shout" (quoteString (Shout m)) +:+ "}".

(** The operand is the pointer [s.info]: nil is written as [null]. *)
Definition Marshal_InfoResponse (p : option InfoResponse) : string :=
  match p with
  | None => "null"
  | Some i =>
      "{" +:+ member "apiversion" (quoteString (APIVersion i))
      +:+ "," +:+ member "author" (quoteString (Author i))
      +:+ "," +:+ member "color" (quoteString (Color i))
      +:+ "," +:+ member "head" (quoteString (Head i))
      +:+ "," +:+ member "tail" (quoteString (Tail i))
      +:+ "," +:+ member "version" (quoteString (Version i)) +:+ "}"
  end.

(** [json.NewEncoder(w).Encode(v)] for a value whose encoding is [text]:
    the text and a newline go to the writer in one [Write]. *)
Definition Encode (text : string) (w : ResponseWriter) : option error * ResponseWriter :=
  Write (text +:+ str newline) w.

(** ** Handlers and their state *)

Record State := mkState {
  st_w : ResponseWriter;
  st_log : list string;
  st_heap : gmap positive InfoResponse;
  st_user : U
}.

Definition setW (w : ResponseWriter) (st : State) : State :=
  mkState w (st_log st) (st_heap st) (st_user st).

Definition setLog (out : list string) (st : State) : State :=
  mkState (st_w st) out (st_heap st) (st_user st).

Definition setUser (u : U) (st : State) : State :=
  mkState (st_w st) (st_log st) (st_heap st) u.

(** A handler returns, or panics (a nil pointer dereference). *)
Inductive Result :=
| Returned (st : State)
| Panicked (st : State).

Definition stateOf (res : Result) : State :=
  match res with Returned st | Panicked st => st end.

Definition HandlerFunc := Request -> State -> Result.

(** What a call leaves behind apart from the log: whether it panicked, the
    response writer, the heap and the caller's state. *)
Definition effects (res : Result) : bool * ResponseWriter * gmap positive InfoResponse * U :=
  (match res with Returned _ => false | Panicked _ => true end,
   st_w (stateOf res), st_heap (stateOf res), st_user (stateOf res)).

(** ** net/http: ServeMux (patterns without a host) *)

Definition ServeMux := list (string * HandlerFunc).

Definition HandleFunc (pattern : string) (handler : HandlerFunc) (mux : ServeMux) : ServeMux :=
  mux ++ [(pattern, handler)].

Fixpoint mux_exact (mux : ServeMux) (path : string) : option HandlerFunc :=
  match mux with
  | [] => None
  | (pattern, h) :: rest => if String.eqb pattern path then Some h else mux_exact rest path
  end.

Fixpoint mux_longest (mux : ServeMux) (path : string)
    (best : option (string * HandlerFunc)) : option (string * HandlerFunc) :=
  match mux with
  | [] => best
  | (pattern, h) :: rest =>
      let longer :=
        match best with
        | None => true
        | Some (bp, _) => Nat.ltb (String.length bp) (String.length pattern)
        end in
      let ends := match lastByte pattern with Some "/"%char => true | _ => false end in
      mux_longest rest path
        (if ends && hasPrefix path pattern && longer then Some (pattern, h) else best)
  end.

(** [mux.match]: an exact match first, then the longest pattern that ends
    in a slash and is a prefix of the path. *)
Definition mux_match (mux : ServeMux) (path : string) : option HandlerFunc :=
  match mux_exact mux path with
  | Some h => Some h
  | None => option_map snd (mux_longest mux path None)
  end.

Definition shouldRedirect (mux : ServeMux) (path : string) : bool :=
  match mux_exact mux path with
  | Some _ => false
  | None =>
      match path with
      | EmptyString => false
      | _ =>
          match mux_exact mux (path +:+ "/") with
          | Some _ => match lastByte path with Some "/"%char => false | _ => true end
          | None => false
          end
      end
  end.

(** What the router finds for a request: a redirect to a path (with the
    query of the request), a registered handler, or nothing. *)
Inductive Route :=
| RouteRedirect (path : string)
| RouteHandler (h : HandlerFunc)
| RouteNotFound.

Definition mux_handler (mux : ServeMux) (path : string) : Route :=
  match mux_match mux path with
  | Some h => RouteHandler h
  | None => RouteNotFound
  end.

(** [mux.Handler]: a CONNECT request is not canonicalized; any other
    request whose path is not clean is redirected to the cleaned path. *)
Definition mux_Handler (mux : ServeMux) (r : Request) : Route :=
  if String.eqb (Method r) "CONNECT" then
    if shouldRedirect mux (URL_Path r) then RouteRedirect (URL_Path r +:+ "/")
    else mux_handler mux (URL_Path r)
  else
    let path := cleanPath (URL_Path r) in
    if shouldRedirect mux path then RouteRedirect (path +:+ "/")
    else if negb (String.eqb path (URL_Path r)) then RouteRedirect path
    else mux_handler mux (URL_Path r).

Definition mux_ServeHTTP (mux : ServeMux) (r : Request) (st : State) : Result :=
  if String.eqb (RequestURI r) "*" then
    let w := st_w st in
    let w := if ProtoAtLeast11 r then setHeader "Connection" "close" w else w in
    Returned (setW (WriteHeader StatusBadRequest w) st)
  else
    match mux_Handler mux r with
    | RouteRedirect path => Returned (setW (mux_redirect r path (st_w st)) st)
    | RouteHandler h => h r st
    | RouteNotFound => Returned (setW (http_Error (st_w st) "404 page not found" StatusNotFound) st)
    end.

(** ** server.go: the server *)

(** The embedded [http.Handler] is the router [New] builds; [info] points
    into the heap the caller shares with the server.  The move function
    receives the pointer to the decoded state ([None] is nil) and the
    server's logger, and returns.  What it gives back is its response, the
    game state as the call leaves it behind the pointer (the function may
    write to it; behind nil there is none and the value is not looked at),
    the entries it wrote to the sink, and its own new state.  The logger's
    mask is not exported and no code of the package assigns it after
    [NewLogger]: the logger the function is handed is the server's before
    and after the call. *)
Record BattlesnakeServer := mkServer {
  Handler : ServeMux;
  port : string;
  info : positive;
  logger : Logger;
  moveFunc : option GameState -> Logger -> U -> MoveResponse * GameState * list string * U
}.

Definition indexHandler (s : BattlesnakeServer) : HandlerFunc := fun r st =>
  if negb (String.eqb (URL_Path r) "/") then
    Returned (setW (WriteHeader StatusNotFound (st_w st)) st)
  else
    let w := setHeader "content-type" "application/json" (st_w st) in
    match Encode (Marshal_InfoResponse (st_heap st !! info s)) w with
    | (Some e, w) =>
        let out := Err (logger s) "Failed to encode index response: %s" [AError e] (st_log st) in
        Returned (setW (WriteHeader StatusInternalServerError w) (setLog out st))
    | (None, w) => Returned (setW w st)
    end.

Definition startHandler (s : BattlesnakeServer) : HandlerFunc := fun r st =>
  match Decode (Body r) with
  | inl e =>
      let out := Err (logger s) "Failed to decode start request body: %s" [AError e] (st_log st) in
      Returned (setW (WriteHeader StatusBadRequest (st_w st)) (setLog out st))
  | inr None => Panicked st
  | inr (Some state) =>
      Returned (setLog (Info (logger s) "Game ID %s [Turn %d] Snake ID %s - Start"
                          [AString (Game_ID (GameState_Game state)); AInt (GameState_Turn state);
                           AString (Battlesnake_ID (GameState_You state))] (st_log st)) st)
  end.

Definition endHandler (s : BattlesnakeServer) : HandlerFunc := fun r st =>
  match Decode (Body r) with
  | inl e =>
      let out := Err (logger s) "Failed to decode end request body: %s" [AError e] (st_log st) in
      Returned (setW (WriteHeader StatusBadRequest (st_w st)) (setLog out st))
  | inr None => Panicked st
  | inr (Some state) =>
      Returned (setLog (Info (logger s) "Game ID %s [Turn %d] Snake ID %s - End"
                          [AString (Game_ID (GameState_Game state)); AInt (GameState_Turn state);
                           AString (Battlesnake_ID (GameState_You state))] (st_log st)) st)
  end.

Definition moveHandler (s : BattlesnakeServer) : HandlerFunc := fun r st =>
  match Decode (Body r) with
  | inl e =>
      let out := Err (logger s) "Failed to decode move request body: %s" [AError e] (st_log st) in
      Returned (setW (WriteHeader StatusBadRequest (st_w st)) (setLog out st))
  | inr state =>
      let '(resp, after, lines, u) := moveFunc s state (logger s) (st_user st) in
      let st := setUser u (setLog (st_log st ++ lines) st) in
      let w := setHeader "Content-Type" "application/json" (st_w st) in
      match Encode (Marshal_MoveResponse resp) w with
      | (Some e, w) =>
          let out := Err (logger s) "Failed to encode move response, %s" [AError e] (st_log st) in
          Returned (setW (WriteHeader StatusInternalServerError w) (setLog out st))
      | (None, w) =>
          match state with
          | None => Panicked (setW w st)
          | Some _ =>
              Returned (setLog (Info (logger s) "Game ID %s [Turn %d] Snake ID %s - Move: %s"
                                  [AString (Game_ID (GameState_Game after));
                                   AInt (GameState_Turn after);
                                   AString (Battlesnake_ID (GameState_You after));
                                   AString (Move resp)] (st_log st)) (setW w st))
          end
      end
  end.

Definition withRequestLogging (s : BattlesnakeServer) (next : HandlerFunc) : HandlerFunc :=
  if Enabled (logger s) LDebug then
    fun r st =>
      let '(b, err, rest) := io_ReadAll (Body r) in
      let r := setBody rest r in
      match err with
      | Some e =>
          let out := Err (logger s) "Failed to read request body: %s" [AError e] (st_log st) in
          Returned (setW (WriteHeader StatusBadRequest (st_w st)) (setLog out st))
      | None =>
          let r := setBody (bytes_NewBuffer b) r in
          let out := Debug (logger s) ("%s %s %s" +:+ str newline)
                       [AString (Method r); AString (URL_Path r); AString b] (st_log st) in
          next r (setLog out st)
      end
  else next.

(** [New]: the [*log.Logger] argument is the sink of the state; a nil
    [info] panics at the assignment to its field ([None]).  The handlers
    close over the server and read its info, its logger and its move
    function only, so they are built from the server before its router is
    set. *)
Definition New (port : string) (info : option positive) (loggerOpts : Z)
    (moveFunc : option GameState -> Logger -> U -> MoveResponse * GameState * list string * U)
    (heap : gmap positive InfoResponse)
    : option (BattlesnakeServer * gmap positive InfoResponse) :=
  match info with
  | None => None
  | Some p =>
      match heap !! p with
      | None => None
      | Some i =>
          let heap :=
            <[p := mkInfoResponse apiVersion (Author i) (Color i) (Head i) (Tail i) (Version i)]>
              heap in
          let s := mkServer [] port p (NewLogger loggerOpts) moveFunc in
          let r := [] in
          let r := HandleFunc "/" (withRequestLogging s (indexHandler s)) r in
          let r := HandleFunc "/start" (withRequestLogging s (startHandler s)) r in
          let r := HandleFunc "/end" (withRequestLogging s (endHandler s)) r in
          let r := HandleFunc "/move" (withRequestLogging s (moveHandler s)) r in
          Some (mkServer r port p (NewLogger loggerOpts) moveFunc, heap)
      end
  end.

(** The table of the router [New] returns, in the order of registration. *)
Definition routes (s : BattlesnakeServer) : ServeMux :=
  [("/"%string, withRequestLogging s (indexHandler s));
   ("/start"%string, withRequestLogging s (startHandler s));
   ("/end"%string, withRequestLogging s (endHandler s));
   ("/move"%string, withRequestLogging s (moveHandler s))].

(** [s.ServeHTTP], promoted from the embedded router. *)
Definition ServeHTTP (s : BattlesnakeServer) : HandlerFunc := mux_ServeHTTP (Handler s).

(** [Start], up to its call of [http.Serve]: [listen] is what [net.Listen]
    returns, an error or a listener, given by the text of its address (a
    [net.Addr], which [%s] prints through its [String] method).  The result
    is the error returned at once and the sink left as it was, or the sink
    as it is when serving begins. *)
Definition Start (s : BattlesnakeServer) (listen : error + string) (out : list string)
    : option error * list string :=
  match listen with
  | inl e => (Some e, out)
  | inr addr =>
      let out := log_Printf ("START server running at %s..." +:+ str newline)
                   [AString addr] out in
      let out := Debug (logger s) "request debug logging enabled" [] out in
      (None, out)
  end.


End Server.

(** ** Sample inputs

    A request body, the state it decodes to, an info record whose API
    version is not the server's, and an environment for them: a move function
    that counts its calls in a [nat], [unmarshal] at the sample bodies (and
    the error of a value that is no object elsewhere), [quoteString] for
    strings of plain characters, and a redirect that sets [Location] to
    the path and the query and writes the header. *)

Definition quoted (s : string) : string := str dquote +:+ s +:+ str dquote.

Definition sampleBody : string :=
  "{" +:+ quoted "game" +:+ ":{" +:+ quoted "id" +:+ ":" +:+ quoted "g1" +:+ "},"
  +:+ quoted "turn" +:+ ":3,"
  +:+ quoted "you" +:+ ":{" +:+ quoted "id" +:+ ":" +:+ quoted "me" +:+ "}}".

Definition sampleState : GameState :=
  mkGameState
    (mkGame "g1" (Game_Ruleset (GameState_Game zeroGameState)) "" "" 0)
    3 (GameState_Board zeroGameState)
    (mkBattlesnake "me" "" 0 [] zeroCoord 0 "" "" "" (mkCustomizations "" "" "")).

Definition unmarshalSample (value : string) : error + option GameState :=
  if String.eqb value "{}" then inr (Some zeroGameState)
  else if String.eqb value sampleBody then inr (Some sampleState)
  else if String.eqb value "null" then inr None
  else inl (mkError "*json.UnmarshalTypeError"
              "json: cannot unmarshal value into Go value of type server.GameState").

Definition redirectSample (r : Request) (path : string) (w : ResponseWriter)
    : ResponseWriter :=
  let target :=
    if String.eqb (URL_RawQuery r) "" then path else path +:+ "?" +:+ URL_RawQuery r in
  WriteHeader 307 (setHeader "Location" target w).

Definition sampleEnv : Env :=
  {| U := nat;
     unmarshal := unmarshalSample;
     quoteString := quoted;
     mux_redirect := redirectSample |}.

Definition moveUp (state : option GameState) (l : Logger) (calls : nat)
    : MoveResponse * GameState * list string * nat :=
  (mkMoveResponse "up" "Hi!", default zeroGameState state, [], S calls).


Definition sampleInfo : InfoResponse :=
  mkInfoResponse "7" "foo" "#000000" "default" "default" "9.9".

Definition sampleHeap : gmap positive InfoResponse := {[ 1%positive := sampleInfo ]}.

(** The server of the package's tests, with logger options [loggerOpts]. *)
Definition sampleNew (loggerOpts : Z)
    : option (@BattlesnakeServer sampleEnv * gmap positive InfoResponse) :=
  @New sampleEnv "0" (Some 1%positive) loggerOpts moveUp sampleHeap.

(** A state with the writer [w], an empty sink and no call made yet. *)
Definition sampleStart (w : ResponseWriter) (heap : gmap positive InfoResponse)
    : @State sampleEnv :=
  @mkState sampleEnv w [] heap 0%nat.

(** One request served by the sample server from a fresh state: the
    status, the content type and the body of the response, the log, and the
    number of calls of the move function. *)
Definition sampleServe (loggerOpts : Z) (w : ResponseWriter) (r : Request)
    : option (Z * string * string * list string * nat) :=
  match sampleNew loggerOpts with
  | Some (s, heap) =>
      let st := stateOf (ServeHTTP s r (sampleStart w heap)) in
      Some (StatusCode (st_w st), Header_Get (ResponseHeader (st_w st)) "Content-Type",
            body (st_w st), st_log st, st_user st)
  | None => None
  end.

(** A request whose body holds the sample game state and then fails: the
    connection breaks after the last byte of the state. *)
Definition sampleCutRequest (path : string) : Request :=
  mkRequest "POST" path "" "" true (mkReadCloser sampleBody (Some io_ErrUnexpectedEOF)).

(** A writer that cannot send. *)
Definition brokenWriter : ResponseWriter :=
  mkResponseWriter false 0 ∅ ∅ "" (Some (mkError "*net.OpError" "write: broken pipe")).

(** * Properties *)

(** ** fmt and the logger *)

Lemma append_cons (c : ascii) (a b : string) : String c a +:+ b = String c (a +:+ b).
Proof. reflexivity. Qed.

Lemma append_assoc (a b c : string) : (a +:+ b) +:+ c = a +:+ (b +:+ c).
Proof.
  induction a as [|x a IH]; [reflexivity|].
  rewrite !append_cons. now rewrite IH.
Qed.

Lemma append_nil_r (a : string) : a +:+ "" = a.
Proof.
  induction a as [|x a IH]; [reflexivity|].
  rewrite append_cons. now rewrite IH.
Qed.

Lemma Sprintf_literal (c : ascii) (format : string) (v : list arg) :
  c <> "%"%char -> Sprintf (String c format) v = String c (Sprintf format v).
Proof.
  intros Hne. destruct c as [[] [] [] [] [] [] [] []]; try reflexivity.
  now contradiction Hne.
Qed.

(** Literal text before the first verb is copied as it is. *)
Lemma Sprintf_literal_prefix (p format : string) (v : list arg) :
  noPercent p = true -> Sprintf (p +:+ format) v = p +:+ Sprintf format v.
Proof.
  induction p as [|c p IH]; intros Hp; [reflexivity|].
  simpl in Hp. apply andb_prop in Hp as [Hc Hp].
  rewrite !append_cons, Sprintf_literal, IH; [reflexivity | exact Hp |].
  intros ->. discriminate Hc.
Qed.

Lemma Err_spec (l : Logger) (format : string) (v : list arg) (out : list string) :
  Err l format v out
  = if Enabled l LError then out ++ ["ERROR " +:+ Sprintf format v] else out.
Proof.
  unfold Err, Enabled, log_Printf. destruct (negb _); [|reflexivity].
  now rewrite Sprintf_literal_prefix by reflexivity.
Qed.

Lemma Warn_spec (l : Logger) (format : string) (v : list arg) (out : list string) :
  Warn l format v out
  = if Enabled l LWarning then out ++ ["WARN " +:+ Sprintf format v] else out.
Proof.
  unfold Warn, Enabled, log_Printf. destruct (negb _); [|reflexivity].
  now rewrite Sprintf_literal_prefix by reflexivity.
Qed.

Lemma Info_spec (l : Logger) (format : string) (v : list arg) (out : list string) :
  Info l format v out
  = if Enabled l LInfo then out ++ ["INFO " +:+ Sprintf format v] else out.
Proof.
  unfold Info, Enabled, log_Printf. destruct (negb _); [|reflexivity].
  now rewrite Sprintf_literal_prefix by reflexivity.
Qed.

Lemma Debug_spec (l : Logger) (format : string) (v : list arg) (out : list string) :
  Debug l format v out
  = if Enabled l LDebug then out ++ ["DEBUG " +:+ Sprintf format v] else out.
Proof.
  unfold Debug, Enabled, log_Printf. destruct (negb _); [|reflexivity].
  now rewrite Sprintf_literal_prefix by reflexivity.
Qed.

(** ** The library models at inputs of known outcome *)

Example Sprintf_verbs :
  Sprintf "Game ID %s [Turn %d] Snake ID %s - Start" [AString "g1"; AInt 3; AString "me"]
  = "Game ID g1 [Turn 3] Snake ID me - Start"%string
  /\ Sprintf "%d%% of %v" [AInt (-5); AError io_EOF] = "-5% of EOF"%string
  /\ Sprintf "%s and %s" [AString "a"] = "a and %!s(MISSING)"%string
  /\ Sprintf "done" [AInt 1; AString "x"] = "done%!(EXTRA int=1, string=x)"%string
  /\ Sprintf "%d" [AString "x"] = "%!d(string=x)"%string
  /\ Sprintf "100%" [] = "100%!(NOVERB)"%string.
Proof. repeat split; reflexivity. Qed.

Example json_Valid_samples :
  json_Valid sampleBody = true
  /\ json_Valid "{}" = true
  /\ json_Valid " [1, -2.5e3, true, false, null] " = true
  /\ json_Valid ("[" +:+ quoted "a\n\u00e9" +:+ "]") = true
  /\ json_Valid "{invalid}" = false
  /\ json_Valid "{}x" = false
  /\ json_Valid "[1,]" = false
  /\ json_Valid "01" = false
  /\ json_Valid "tru" = false
  /\ json_Valid "" = false
  /\ json_Valid ("{" +:+ quoted "a" +:+ ":1,}") = false.
Proof. repeat split; reflexivity. Qed.

(** The stream decoder takes the first value and leaves the rest. *)
Example readValue_samples :
  readValue "{}x" None = inr "{}"%string
  /\ readValue "  [1, 2] {" None = inr "  [1, 2]"%string
  /\ readValue "12 34" None = inr "12"%string
  /\ readValue "" None = inl io_EOF
  /\ readValue "  " None = inl io_EOF
  /\ readValue "{" None = inl io_ErrUnexpectedEOF
  /\ readValue "{invalid}{}" None
     = inl (SyntaxError "invalid character 'i' looking for beginning of object key string")
  /\ readValue "{" (Some (mkError "*net.OpError" "read: connection reset"))
     = inl (mkError "*net.OpError" "read: connection reset")
  /\ readValue "{}" (Some (mkError "*net.OpError" "read: connection reset")) = inr "{}"%string.
Proof. repeat split; reflexivity. Qed.

Example cleanPath_samples :
  cleanPath "" = "/"%string
  /\ cleanPath "/start" = "/start"%string
  /\ cleanPath "start" = "/start"%string
  /\ cleanPath "//start" = "/start"%string
  /\ cleanPath "/start/" = "/start/"%string
  /\ cleanPath "/a/./b/../c/" = "/a/c/"%string
  /\ cleanPath "/../.." = "/"%string.
Proof. repeat split; reflexivity. Qed.

Example CanonicalMIMEHeaderKey_samples :
  CanonicalMIMEHeaderKey "content-type" = "Content-Type"%string
  /\ CanonicalMIMEHeaderKey "Content-Type" = "Content-Type"%string
  /\ CanonicalMIMEHeaderKey "x-content-type-options" = "X-Content-Type-Options"%string
  /\ CanonicalMIMEHeaderKey "content type" = "content type"%string.
Proof. repeat split; reflexivity. Qed.


(** C8.  For a logger constructed with the mask [m], each level method
    ([Err], [Warn], [Info], [Debug]) writes nothing when its bit is not set
    in [m], and otherwise writes exactly one entry, the level name
    (ERROR, WARN, INFO, DEBUG) followed by the formatted message.  The bits
    are distinct (error 1, warning 2, info 4, debug 8); the default mask is
    the union of the error, warning and info bits, so it enables these three
    levels and not the debug level, and [Debug] writes nothing under it. *)
Theorem Logger_level_methods (m : Z) (format : string) (v : list arg) (out : list string) :
  (LError = 1 /\ LWarning = 2 /\ LInfo = 4 /\ LDebug = 8)%Z
  /\ Err (NewLogger m) format v out
     = (if Z.eqb (Z.land m 1) 0 then out else out ++ ["ERROR " +:+ Sprintf format v])
  /\ Warn (NewLogger m) format v out
     = (if Z.eqb (Z.land m 2) 0 then out else out ++ ["WARN " +:+ Sprintf format v])
  /\ Info (NewLogger m) format v out
     = (if Z.eqb (Z.land m 4) 0 then out else out ++ ["INFO " +:+ Sprintf format v])
  /\ Debug (NewLogger m) format v out
     = (if Z.eqb (Z.land m 8) 0 then out else out ++ ["DEBUG " +:+ Sprintf format v])
  /\ LDefault = Z.lor (Z.lor LError LWarning) LInfo
  /\ LDefault = 7%Z
  /\ Enabled (NewLogger LDefault) LError = true
  /\ Enabled (NewLogger LDefault) LWarning = true
  /\ Enabled (NewLogger LDefault) LInfo = true
  /\ Enabled (NewLogger LDefault) LDebug = false
  /\ Debug (NewLogger LDefault) format v out = out.
Proof.
  split; [repeat split; reflexivity|].
  rewrite Err_spec, Warn_spec, Info_spec, Debug_spec. unfold Enabled, NewLogger. simpl opts.
  change LError with 1%Z. change LWarning with 2%Z. change LInfo with 4%Z.
  change LDebug with 8%Z.
  repeat split; try reflexivity.
  - now destruct (Z.eqb (Z.land m 1) 0).
  - now destruct (Z.eqb (Z.land m 2) 0).
  - now destruct (Z.eqb (Z.land m 4) 0).
  - now destruct (Z.eqb (Z.land m 8) 0).
Qed.


(** ** Masks and combined options *)

Lemma Enabled_lor (m a b : Z) :
  Enabled (NewLogger m) (Z.lor a b) = Enabled (NewLogger m) a || Enabled (NewLogger m) b.
Proof.
  unfold Enabled, NewLogger. simpl opts. rewrite Z.land_lor_distr_r.
  destruct (Z.eqb_spec (Z.land m a) 0) as [Ha|Ha];
    destruct (Z.eqb_spec (Z.land m b) 0) as [Hb|Hb]; simpl.
  - rewrite Ha, Hb. reflexivity.
  - destruct (Z.eqb_spec (Z.lor (Z.land m a) (Z.land m b)) 0) as [E|]; [|reflexivity].
    apply Z.lor_eq_0_iff in E. tauto.
  - destruct (Z.eqb_spec (Z.lor (Z.land m a) (Z.land m b)) 0) as [E|]; [|reflexivity].
    apply Z.lor_eq_0_iff in E. tauto.
  - destruct (Z.eqb_spec (Z.lor (Z.land m a) (Z.land m b)) 0) as [E|]; [|reflexivity].
    apply Z.lor_eq_0_iff in E. tauto.
Qed.

Lemma Enabled_mask_lor (m a opt : Z) :
  Enabled (NewLogger (Z.lor m a)) opt
  = Enabled (NewLogger m) opt || Enabled (NewLogger a) opt.
Proof.
  unfold Enabled, NewLogger. simpl opts. rewrite Z.land_lor_distr_l.
  destruct (Z.eqb_spec (Z.land m opt) 0) as [Ha|Ha];
    destruct (Z.eqb_spec (Z.land a opt) 0) as [Hb|Hb]; simpl.
  - rewrite Ha, Hb. reflexivity.
  - destruct (Z.eqb_spec (Z.lor (Z.land m opt) (Z.land a opt)) 0) as [E|]; [|reflexivity].
    apply Z.lor_eq_0_iff in E. tauto.
  - destruct (Z.eqb_spec (Z.lor (Z.land m opt) (Z.land a opt)) 0) as [E|]; [|reflexivity].
    apply Z.lor_eq_0_iff in E. tauto.
  - destruct (Z.eqb_spec (Z.lor (Z.land m opt) (Z.land a opt)) 0) as [E|]; [|reflexivity].
    apply Z.lor_eq_0_iff in E. tauto.
Qed.

(** X3.  [Enabled] asked about a combination of options answers for any of
    them, not for all: it is true as soon as one of the combined bits is
    set in the mask, and false for the empty option.  A mask built with
    bitwise or enables what either operand enables; so adding the debug
    bit to a mask, as the package's documentation does, enables [Debug] and
    leaves [Err], [Warn] and [Info] writing what they wrote before. *)
Theorem Enabled_any_bit (m a b : Z) (format : string) (v : list arg) (out : list string) :
  Enabled (NewLogger m) (Z.lor a b) = Enabled (NewLogger m) a || Enabled (NewLogger m) b
  /\ Enabled (NewLogger m) 0 = false
  /\ Enabled (NewLogger (Z.lor m a)) b = Enabled (NewLogger m) b || Enabled (NewLogger a) b
  /\ Err (NewLogger (Z.lor m LDebug)) format v out = Err (NewLogger m) format v out
  /\ Warn (NewLogger (Z.lor m LDebug)) format v out = Warn (NewLogger m) format v out
  /\ Info (NewLogger (Z.lor m LDebug)) format v out = Info (NewLogger m) format v out
  /\ Debug (NewLogger (Z.lor m LDebug)) format v out = out ++ ["DEBUG " +:+ Sprintf format v].
Proof.
  split; [apply Enabled_lor|].
  split; [unfold Enabled; now rewrite Z.land_0_r|].
  split; [apply Enabled_mask_lor|].
  rewrite !Err_spec, !Warn_spec, !Info_spec, Debug_spec, !Enabled_mask_lor.
  repeat split.
  - now rewrite orb_false_r.
  - now rewrite orb_false_r.
  - now rewrite orb_false_r.
  - now rewrite orb_true_r.
Qed.


Section Facts.

Context `{Env}.

Implicit Types (s : BattlesnakeServer) (r : Request) (st : State) (next : HandlerFunc).

(** ** The response writer *)

Lemma StatusCode_WriteHeader (code : Z) (w : ResponseWriter) :
  wroteHeader w = false -> StatusCode (WriteHeader code w) = code.
Proof. intros Hw. unfold WriteHeader, StatusCode. now rewrite Hw. Qed.

Lemma Write_no_error (b : string) (w : ResponseWriter) :
  writeErr w = None -> fst (Write b w) = None.
Proof.
  intros He. unfold Write, WriteHeader.
  destruct (wroteHeader w); simpl; now rewrite He.
Qed.

(** A [Write] on a writer that can send: the header goes out with status
    200 when none was written, and the data is appended. *)
Lemma Write_ok (b : string) (w : ResponseWriter) :
  writeErr w = None -> wroteHeader w = false ->
  Write b w = (None, mkResponseWriter true StatusOK (header w) (header w) (body w +:+ b) None).
Proof.
  intros He Hw. unfold Write, WriteHeader. rewrite Hw. simpl. rewrite He. reflexivity.
Qed.

(** A [Write] on a writer that cannot send: the header has gone out with
    status 200 by the time the error is returned. *)
Lemma Write_failed (b : string) (w : ResponseWriter) (e : error) :
  writeErr w = Some e -> wroteHeader w = false ->
  Write b w = (Some e, mkResponseWriter true StatusOK (header w) (header w) (body w) (Some e)).
Proof.
  intros He Hw. unfold Write, WriteHeader. rewrite Hw. simpl. rewrite He. reflexivity.
Qed.

(** ** The request-logging middleware *)

Lemma withRequestLogging_off s next :
  Enabled (logger s) LDebug = false -> withRequestLogging s next = next.
Proof. intros Hd. unfold withRequestLogging. now rewrite Hd. Qed.

(** A buffer over the bytes of a body that reads to its end without an
    error is that body again, whatever stood in the request meanwhile. *)
Lemma setBody_same r (rest : ReadCloser) :
  readErr (Body r) = None -> setBody (bytes_NewBuffer (data (Body r))) (setBody rest r) = r.
Proof.
  destruct r as [m p q u v [d e]]. simpl. intros ->. reflexivity.
Qed.

Lemma withRequestLogging_failed s next r st (e : error) :
  Enabled (logger s) LDebug = true -> readErr (Body r) = Some e ->
  withRequestLogging s next r st
  = Returned (setW (WriteHeader StatusBadRequest (st_w st))
                (setLog (Err (logger s) "Failed to read request body: %s" [AError e] (st_log st)) st)).
Proof.
  intros Hd He. unfold withRequestLogging, io_ReadAll. rewrite Hd. simpl. rewrite He. reflexivity.
Qed.

Lemma withRequestLogging_read s next r st :
  Enabled (logger s) LDebug = true -> readErr (Body r) = None ->
  withRequestLogging s next r st
  = next r (setLog (st_log st ++ ["DEBUG " +:+ Method r +:+ " " +:+ URL_Path r +:+ " "
                                   +:+ data (Body r) +:+ str newline]) st).
Proof.
  intros Hd He. unfold withRequestLogging, io_ReadAll. rewrite Hd. simpl. rewrite He.
  rewrite setBody_same by exact He.
  rewrite Debug_spec, Hd. reflexivity.
Qed.

(** ** Construction and routing *)

Lemma New_inv (port : string) (infoPtr : option positive) (loggerOpts : Z)
    (mf : option GameState -> Logger -> U -> MoveResponse * GameState * list string * U)
    (heap heap' : gmap positive InfoResponse) s :
  New port infoPtr loggerOpts mf heap = Some (s, heap') ->
  exists p i,
    infoPtr = Some p /\ heap !! p = Some i
    /\ heap' = <[p := mkInfoResponse apiVersion (Author i) (Color i) (Head i) (Tail i) (Version i)]> heap
    /\ info s = p /\ logger s = NewLogger loggerOpts /\ moveFunc s = mf
    /\ Handler s = routes s.
Proof.
  unfold New. destruct infoPtr as [p|]; [|discriminate].
  destruct (heap !! p) as [i|] eqn:Hp; [|discriminate].
  intros [= <- <-]. exists p, i. repeat split; try reflexivity. exact Hp.
Qed.

Lemma lastByte_append_slash (p : string) : lastByte (p +:+ "/") = Some "/"%char.
Proof.
  induction p as [|c p IH]; [reflexivity|].
  rewrite append_cons. simpl. rewrite IH.
  destruct (p +:+ "/") eqn:E; [|reflexivity].
  destruct p; discriminate.
Qed.

Lemma eqb_append_slash (pattern p : string) :
  lastByte pattern <> Some "/"%char -> String.eqb pattern (p +:+ "/") = false.
Proof.
  intros Hl. destruct (String.eqb_spec pattern (p +:+ "/")) as [->|]; [|reflexivity].
  now rewrite lastByte_append_slash in Hl.
Qed.

(** No request is redirected to a path with a slash added: "/" is the
    only registered pattern that ends in one. *)
Lemma shouldRedirect_routes s (path : string) : shouldRedirect (routes s) path = false.
Proof.
  unfold shouldRedirect.
  destruct (mux_exact (routes s) path); [reflexivity|].
  destruct path as [|c path]; [reflexivity|].
  unfold routes, mux_exact.
  replace (String.eqb "/" (String c path +:+ "/")) with false.
  2:{ destruct (String.eqb_spec "/" (String c path +:+ "/")) as [E|]; [|reflexivity].
      rewrite append_cons in E. injection E as _ E. destruct path; discriminate. }
  rewrite !eqb_append_slash by (simpl; congruence). reflexivity.
Qed.

(** The router on a registered pattern: the request reaches the pattern's
    handler when its path is the pattern and is clean. *)
Lemma ServeHTTP_exact s r st (h : HandlerFunc) :
  Handler s = routes s ->
  RequestURI r <> "*"%string ->
  mux_exact (routes s) (URL_Path r) = Some h ->
  cleanPath (URL_Path r) = URL_Path r ->
  ServeHTTP s r st = h r st.
Proof.
  intros Hh Hu Hm Hc. unfold ServeHTTP, mux_ServeHTTP. rewrite Hh.
  destruct (String.eqb_spec (RequestURI r) "*") as [E|_]; [contradiction|].
  unfold mux_Handler. rewrite Hc, !shouldRedirect_routes, String.eqb_refl. simpl.
  unfold mux_handler, mux_match. rewrite Hm.
  now destruct (String.eqb (Method r) "CONNECT").
Qed.

Lemma ServeHTTP_index s r st :
  Handler s = routes s -> RequestURI r <> "*"%string -> URL_Path r = "/"%string ->
  ServeHTTP s r st = withRequestLogging s (indexHandler s) r st.
Proof.
  intros Hh Hu Hp. apply ServeHTTP_exact; try assumption; now rewrite Hp.
Qed.

Lemma ServeHTTP_start s r st :
  Handler s = routes s -> RequestURI r <> "*"%string -> URL_Path r = "/start"%string ->
  ServeHTTP s r st = withRequestLogging s (startHandler s) r st.
Proof.
  intros Hh Hu Hp. apply ServeHTTP_exact; try assumption; now rewrite Hp.
Qed.

Lemma ServeHTTP_end s r st :
  Handler s = routes s -> RequestURI r <> "*"%string -> URL_Path r = "/end"%string ->
  ServeHTTP s r st = withRequestLogging s (endHandler s) r st.
Proof.
  intros Hh Hu Hp. apply ServeHTTP_exact; try assumption; now rewrite Hp.
Qed.

Lemma ServeHTTP_move s r st :
  Handler s = routes s -> RequestURI r <> "*"%string -> URL_Path r = "/move"%string ->
  ServeHTTP s r st = withRequestLogging s (moveHandler s) r st.
Proof.
  intros Hh Hu Hp. apply ServeHTTP_exact; try assumption; now rewrite Hp.
Qed.

Lemma setLog_same st : setLog (st_log st) st = st.
Proof. now destruct st. Qed.

(** With a body that can be read, the middleware hands the request on as
    it is, after the debug entry when the debug level is enabled. *)
Lemma withRequestLogging_readable s next r st :
  readErr (Body r) = None ->
  withRequestLogging s next r st
  = next r (setLog (st_log st ++
                    (if Enabled (logger s) LDebug
                     then ["DEBUG " +:+ Method r +:+ " " +:+ URL_Path r +:+ " "
                           +:+ data (Body r) +:+ str newline]
                     else [])) st).
Proof.
  intros He. destruct (Enabled (logger s) LDebug) eqn:Hd.
  - now apply withRequestLogging_read.
  - rewrite withRequestLogging_off by exact Hd. now rewrite app_nil_r, setLog_same.
Qed.

(** The same when the debug level is off, whatever the body: it is not
    read. *)
Lemma withRequestLogging_passes s next r st :
  Enabled (logger s) LDebug = false \/ readErr (Body r) = None ->
  withRequestLogging s next r st
  = next r (setLog (st_log st ++
                    (if Enabled (logger s) LDebug
                     then ["DEBUG " +:+ Method r +:+ " " +:+ URL_Path r +:+ " "
                           +:+ data (Body r) +:+ str newline]
                     else [])) st).
Proof.
  intros [Hd | He]; [|now apply withRequestLogging_readable].
  rewrite withRequestLogging_off by exact Hd. now rewrite Hd, app_nil_r, setLog_same.
Qed.

(** With the debug level on and a body whose read fails, the middleware
    answers itself. *)
Lemma withRequestLogging_unreadable s next r st (e : error) :
  Enabled (logger s) LDebug = true -> readErr (Body r) = Some e ->
  withRequestLogging s next r st
  = Returned (setW (WriteHeader StatusBadRequest (st_w st))
                (setLog (st_log st ++
                         (if Enabled (logger s) LError
                          then ["ERROR Failed to read request body: " +:+ Error e]
                          else [])) st)).
Proof.
  intros Hd He. rewrite (withRequestLogging_failed s next r st e Hd He), Err_spec.
  destruct (Enabled (logger s) LError); [|now rewrite app_nil_r].
  simpl. now rewrite append_nil_r.
Qed.

(** ** The route handlers *)

Lemma startHandler_decoded s r st (state : GameState) :
  Decode (Body r) = inr (Some state) ->
  startHandler s r st
  = Returned (setLog (st_log st ++
                      (if Enabled (logger s) LInfo
                       then ["INFO Game ID " +:+ Game_ID (GameState_Game state)
                             +:+ " [Turn " +:+ itoa (GameState_Turn state)
                             +:+ "] Snake ID " +:+ Battlesnake_ID (GameState_You state)
                             +:+ " - Start"]
                       else [])) st).
Proof.
  intros Hd. unfold startHandler. rewrite Hd, Info_spec.
  destruct (Enabled (logger s) LInfo); [reflexivity | now rewrite app_nil_r].
Qed.

Lemma endHandler_decoded s r st (state : GameState) :
  Decode (Body r) = inr (Some state) ->
  endHandler s r st
  = Returned (setLog (st_log st ++
                      (if Enabled (logger s) LInfo
                       then ["INFO Game ID " +:+ Game_ID (GameState_Game state)
                             +:+ " [Turn " +:+ itoa (GameState_Turn state)
                             +:+ "] Snake ID " +:+ Battlesnake_ID (GameState_You state)
                             +:+ " - End"]
                       else [])) st).
Proof.
  intros Hd. unfold endHandler. rewrite Hd, Info_spec.
  destruct (Enabled (logger s) LInfo); [reflexivity | now rewrite app_nil_r].
Qed.

Lemma startHandler_failed s r st (e : error) :
  Decode (Body r) = inl e ->
  startHandler s r st
  = Returned (setW (WriteHeader StatusBadRequest (st_w st))
                (setLog (st_log st ++
                         (if Enabled (logger s) LError
                          then ["ERROR Failed to decode start request body: " +:+ Error e]
                          else [])) st)).
Proof.
  intros Hd. unfold startHandler. rewrite Hd, Err_spec.
  destruct (Enabled (logger s) LError); [|now rewrite app_nil_r].
  simpl. now rewrite append_nil_r.
Qed.

Lemma endHandler_failed s r st (e : error) :
  Decode (Body r) = inl e ->
  endHandler s r st
  = Returned (setW (WriteHeader StatusBadRequest (st_w st))
                (setLog (st_log st ++
                         (if Enabled (logger s) LError
                          then ["ERROR Failed to decode end request body: " +:+ Error e]
                          else [])) st)).
Proof.
  intros Hd. unfold endHandler. rewrite Hd, Err_spec.
  destruct (Enabled (logger s) LError); [|now rewrite app_nil_r].
  simpl. now rewrite append_nil_r.
Qed.

Lemma moveHandler_failed s r st (e : error) :
  Decode (Body r) = inl e ->
  moveHandler s r st
  = Returned (setW (WriteHeader StatusBadRequest (st_w st))
                (setLog (st_log st ++
                         (if Enabled (logger s) LError
                          then ["ERROR Failed to decode move request body: " +:+ Error e]
                          else [])) st)).
Proof.
  intros Hd. unfold moveHandler. rewrite Hd, Err_spec.
  destruct (Enabled (logger s) LError); [|now rewrite app_nil_r].
  simpl. now rewrite append_nil_r.
Qed.



Lemma indexHandler_root s r st :
  URL_Path r = "/"%string -> writeErr (st_w st) = None -> wroteHeader (st_w st) = false ->
  indexHandler s r st
  = Returned
      (setW (mkResponseWriter true StatusOK
               (Header_Set "content-type" "application/json" (header (st_w st)))
               (Header_Set "content-type" "application/json" (header (st_w st)))
               (body (st_w st) +:+ (Marshal_InfoResponse (st_heap st !! info s) +:+ str newline))
               None) st).
Proof.
  intros Hp He Hw. unfold indexHandler. rewrite Hp. simpl. unfold Encode.
  now rewrite Write_ok by assumption.
Qed.

Lemma indexHandler_other s r st :
  URL_Path r <> "/"%string ->
  indexHandler s r st = Returned (setW (WriteHeader StatusNotFound (st_w st)) st).
Proof.
  intros Hp. unfold indexHandler.
  destruct (String.eqb_spec (URL_Path r) "/"); [contradiction | reflexivity].
Qed.

(** ** What the handlers do not depend on

    No handler reads the request's method or the log: apart from the log,
    the effects of a call are those of the call with any other method and
    any other log. *)

Lemma indexHandler_effects s r st (m : string) (out : list string) :
  effects (indexHandler s (setMethod m r) (setLog out st)) = effects (indexHandler s r st).
Proof.
  unfold indexHandler. simpl.
  destruct (negb (String.eqb (URL_Path r) "/")); [reflexivity|].
  destruct (Encode _ _) as [[e|] w]; reflexivity.
Qed.

Lemma startHandler_effects s r st (m : string) (out : list string) :
  effects (startHandler s (setMethod m r) (setLog out st)) = effects (startHandler s r st).
Proof.
  unfold startHandler. simpl. destruct (Decode (Body r)) as [e|[state|]]; reflexivity.
Qed.

Lemma endHandler_effects s r st (m : string) (out : list string) :
  effects (endHandler s (setMethod m r) (setLog out st)) = effects (endHandler s r st).
Proof.
  unfold endHandler. simpl. destruct (Decode (Body r)) as [e|[state|]]; reflexivity.
Qed.

Lemma moveHandler_effects s r st (m : string) (out : list string) :
  effects (moveHandler s (setMethod m r) (setLog out st)) = effects (moveHandler s r st).
Proof.
  unfold moveHandler. simpl. destruct (Decode (Body r)) as [e|state]; [reflexivity|].
  destruct (moveFunc s state (logger s) (st_user st)) as [[[resp after] lines] u]. simpl.
  destruct (Encode _ _) as [[e|] w]; [reflexivity|].
  destruct state; reflexivity.
Qed.

Lemma withRequestLogging_effects s next r st (m : string) (out : list string) :
  (forall r st m out, effects (next (setMethod m r) (setLog out st)) = effects (next r st)) ->
  effects (withRequestLogging s next (setMethod m r) (setLog out st))
  = effects (withRequestLogging s next r st).
Proof.
  intros Hnext. unfold withRequestLogging.
  destruct (Enabled (logger s) LDebug); [|apply Hnext].
  unfold io_ReadAll. simpl. destruct (readErr (Body r)) as [e|]; [reflexivity|].
  change (setBody (bytes_NewBuffer (data (Body r))) (setMethod m r))
    with (setMethod m (setBody (bytes_NewBuffer (data (Body r))) r)).
  match goal with
  | |- effects (next _ (setLog ?o (setLog out st))) = effects (next ?r' (setLog ?o' st)) =>
      rewrite <- (Hnext r' (setLog o' st) m o)
  end.
  reflexivity.
Qed.

(** The handler the table has for a path. *)
Lemma mux_handler_routes s (path : string) :
  mux_handler (routes s) path
  = if String.eqb "/" path then RouteHandler (withRequestLogging s (indexHandler s))
    else if String.eqb "/start" path then RouteHandler (withRequestLogging s (startHandler s))
    else if String.eqb "/end" path then RouteHandler (withRequestLogging s (endHandler s))
    else if String.eqb "/move" path then RouteHandler (withRequestLogging s (moveHandler s))
    else if hasPrefix path "/" then RouteHandler (withRequestLogging s (indexHandler s))
    else RouteNotFound.
Proof.
  unfold mux_handler, mux_match, routes, mux_exact.
  destruct (String.eqb "/" path); [reflexivity|].
  destruct (String.eqb "/start" path); [reflexivity|].
  destruct (String.eqb "/end" path); [reflexivity|].
  destruct (String.eqb "/move" path); [reflexivity|].
  simpl. destruct (hasPrefix path "/"); reflexivity.
Qed.

Lemma mux_Handler_clean s r :
  cleanPath (URL_Path r) = URL_Path r ->
  mux_Handler (routes s) r = mux_handler (routes s) (URL_Path r).
Proof.
  intros Hc. unfold mux_Handler.
  rewrite Hc, !shouldRedirect_routes, String.eqb_refl. simpl.
  now destruct (String.eqb (Method r) "CONNECT").
Qed.

(** Where the router sends a request: it answers itself (a bad request
    line, a redirect to the cleaned path, no pattern at all), or it calls
    one of the four wrapped handlers. *)
Lemma ServeHTTP_cases s r st :
  Handler s = routes s ->
  (exists w, ServeHTTP s r st = Returned (setW w st))
  \/ ServeHTTP s r st = withRequestLogging s (indexHandler s) r st
  \/ ServeHTTP s r st = withRequestLogging s (startHandler s) r st
  \/ ServeHTTP s r st = withRequestLogging s (endHandler s) r st
  \/ ServeHTTP s r st = withRequestLogging s (moveHandler s) r st.
Proof.
  intros Hh. unfold ServeHTTP, mux_ServeHTTP. rewrite Hh.
  destruct (String.eqb (RequestURI r) "*"); [left; eexists; reflexivity|].
  assert (Hr : forall path,
    match mux_handler (routes s) path with
    | RouteRedirect _ => False
    | RouteHandler h =>
        h = withRequestLogging s (indexHandler s) \/ h = withRequestLogging s (startHandler s)
        \/ h = withRequestLogging s (endHandler s) \/ h = withRequestLogging s (moveHandler s)
    | RouteNotFound => True
    end).
  { intros path. rewrite mux_handler_routes.
    repeat match goal with |- context [if ?b then _ else _] => destruct b end; tauto. }
  unfold mux_Handler. rewrite !shouldRedirect_routes.
  destruct (String.eqb (Method r) "CONNECT").
  - specialize (Hr (URL_Path r)). destruct (mux_handler (routes s) (URL_Path r)) as [u|h|].
    + contradiction.
    + destruct Hr as [-> | [-> | [-> | ->]]]; tauto.
    + left; eexists; reflexivity.
  - destruct (negb (String.eqb (cleanPath (URL_Path r)) (URL_Path r)));
      [left; eexists; reflexivity|].
    specialize (Hr (URL_Path r)). destruct (mux_handler (routes s) (URL_Path r)) as [u|h|].
    + contradiction.
    + destruct Hr as [-> | [-> | [-> | ->]]]; tauto.
    + left; eexists; reflexivity.
Qed.

(** Every handler of the server only adds to the log. *)
Lemma handlers_extend_log s (h : HandlerFunc) r st :
  In h [indexHandler s; startHandler s; endHandler s; moveHandler s] ->
  exists entries, st_log (stateOf (h r st)) = st_log st ++ entries.
Proof.
  intros Hin. simpl in Hin. destruct Hin as [<- | [<- | [<- | [<- | []]]]].
  - unfold indexHandler. destruct (negb _); [exists []; simpl; now rewrite app_nil_r|].
    destruct (Encode _ _) as [[e|] w]; simpl.
    + rewrite Err_spec. destruct (Enabled _ _); eexists; [reflexivity|].
      symmetry; apply app_nil_r.
    + exists []. now rewrite app_nil_r.
  - unfold startHandler. destruct (Decode _) as [e|[state|]]; simpl.
    + rewrite Err_spec. destruct (Enabled _ _); eexists; [reflexivity|].
      symmetry; apply app_nil_r.
    + rewrite Info_spec. destruct (Enabled _ _); eexists; [reflexivity|].
      symmetry; apply app_nil_r.
    + exists []. now rewrite app_nil_r.
  - unfold endHandler. destruct (Decode _) as [e|[state|]]; simpl.
    + rewrite Err_spec. destruct (Enabled _ _); eexists; [reflexivity|].
      symmetry; apply app_nil_r.
    + rewrite Info_spec. destruct (Enabled _ _); eexists; [reflexivity|].
      symmetry; apply app_nil_r.
    + exists []. now rewrite app_nil_r.
  - unfold moveHandler. destruct (Decode _) as [e|state]; simpl.
    + rewrite Err_spec. destruct (Enabled _ _); eexists; [reflexivity|].
      symmetry; apply app_nil_r.
    + destruct (moveFunc s state (logger s) (st_user st)) as [[[resp after] lines] u]. simpl.
      destruct (Encode _ _) as [[e|] w]; simpl.
      * rewrite Err_spec. destruct (Enabled _ _); simpl.
        -- rewrite <- app_assoc. eexists; reflexivity.
        -- eexists; reflexivity.
      * destruct state as [state|]; simpl; [|eexists; reflexivity].
        rewrite Info_spec. destruct (Enabled _ _); simpl.
        -- rewrite <- app_assoc. eexists; reflexivity.
        -- eexists; reflexivity.
Qed.

(** ** The claims about the middleware *)

(** C6.  When the debug bit is not set in the logger's mask,
    [withRequestLogging] returns the handler it was given, unchanged: the
    check is made when the handler is wrapped, so the wrapped handler is the
    handler itself, and for every request its response and its log are
    those of the handler called directly, no body being read or logged; the
    router [New] builds then holds the four route handlers as they are. *)
Theorem withRequestLogging_debug_off s next :
  Z.land (opts (logger s)) LDebug = 0%Z ->
  withRequestLogging s next = next
  /\ (forall r st, withRequestLogging s next r st = next r st)
  /\ routes s = [("/"%string, indexHandler s); ("/start"%string, startHandler s);
                 ("/end"%string, endHandler s); ("/move"%string, moveHandler s)].
Proof.
  intros Hm.
  assert (Hd : Enabled (logger s) LDebug = false) by (unfold Enabled; now rewrite Hm).
  assert (Hw : forall h, withRequestLogging s h = h)
    by (intros h; now apply withRequestLogging_off).
  split; [apply Hw|]. split; [intros r st; now rewrite Hw|].
  unfold routes. now rewrite !Hw.
Qed.

(** C7.  When the debug bit is set, the middleware reads the whole body of
    every request.  When the read fails it answers with status 400 and
    returns without calling the wrapped handler (an error entry is logged
    when the error level is enabled).  When the read succeeds, the read has
    consumed the body of the request: what is left of it is empty, and a
    decoder would find the end of the input there.  The middleware puts a
    fresh buffer over the bytes it has read in its place, so the wrapped
    handler is called on a request whose body yields the same bytes from the
    start and decodes as the body of the request did; and the debug entry,
    made of the method, the path and the raw body text, is in the log when
    the wrapped handler starts, whatever the body holds: it stands before
    every entry the server's route handlers add. *)
Theorem withRequestLogging_debug_on s next r st :
  Z.land (opts (logger s)) LDebug <> 0%Z ->
  (forall e, readErr (Body r) = Some e ->
     withRequestLogging s next r st
     = Returned (setW (WriteHeader StatusBadRequest (st_w st))
                   (setLog (st_log st ++
                            (if Enabled (logger s) LError
                             then ["ERROR Failed to read request body: " +:+ Error e]
                             else [])) st))
     /\ (wroteHeader (st_w st) = false ->
         StatusCode (st_w (stateOf (withRequestLogging s next r st))) = 400%Z))
  /\ (readErr (Body r) = None ->
      let b := fst (fst (io_ReadAll (Body r))) in
      let rest := snd (io_ReadAll (Body r)) in
      let r' := setBody (bytes_NewBuffer b) (setBody rest r) in
      let entry := "DEBUG " +:+ Method r +:+ " " +:+ URL_Path r +:+ " "
                   +:+ data (Body r) +:+ str newline in
      b = data (Body r)
      /\ data rest = ""%string /\ Decode rest = inl io_EOF
      /\ Body r' = bytes_NewBuffer (data (Body r))
      /\ data (Body r') = data (Body r) /\ readErr (Body r') = None
      /\ Decode (Body r') = Decode (Body r)
      /\ withRequestLogging s next r st = next r' (setLog (st_log st ++ [entry]) st)
      /\ (In next [indexHandler s; startHandler s; endHandler s; moveHandler s] ->
          exists entries,
            st_log (stateOf (withRequestLogging s next r st))
            = st_log st ++ [entry] ++ entries)).
Proof.
  intros Hm.
  assert (Hd : Enabled (logger s) LDebug = true).
  { unfold Enabled. destruct (Z.eqb_spec (Z.land (opts (logger s)) LDebug) 0); [contradiction|].
    reflexivity. }
  split.
  - intros e He. rewrite (withRequestLogging_failed s next r st e Hd He). split.
    + rewrite Err_spec. destruct (Enabled (logger s) LError); [|now rewrite app_nil_r].
      simpl. now rewrite append_nil_r.
    + intros Hw. simpl. now apply StatusCode_WriteHeader.
  - intros He. cbv zeta. unfold io_ReadAll. simpl fst. simpl snd.
    split; [reflexivity|]. split; [reflexivity|].
    split; [unfold Decode; simpl; now rewrite He|].
    rewrite (setBody_same r _ He).
    split; [destruct r as [m p q u v [d e]]; simpl in He |- *; now rewrite He|].
    split; [reflexivity|]. split; [exact He|]. split; [reflexivity|].
    rewrite (withRequestLogging_read s next r st Hd He). split; [reflexivity|].
    intros Hin.
    destruct (handlers_extend_log s next r
                (setLog (st_log st ++ ["DEBUG " +:+ Method r +:+ " " +:+ URL_Path r +:+ " "
                                       +:+ data (Body r) +:+ str newline]) st) Hin)
      as [entries Hl].
    exists entries. rewrite Hl. simpl. now rewrite <- app_assoc.
Qed.

(** ** The claims about routing *)

Lemma ServeHTTP_effects_registered s r st (m : string) :
  Handler s = routes s ->
  In (URL_Path r) ["/"; "/start"; "/end"; "/move"]%string ->
  effects (ServeHTTP s (setMethod m r) st) = effects (ServeHTTP s r st).
Proof.
  intros Hh Hin. unfold ServeHTTP, mux_ServeHTTP. rewrite Hh.
  change (RequestURI (setMethod m r)) with (RequestURI r).
  change (ProtoAtLeast11 (setMethod m r)) with (ProtoAtLeast11 r).
  destruct (String.eqb (RequestURI r) "*"); [reflexivity|].
  assert (Hc : cleanPath (URL_Path r) = URL_Path r).
  { simpl in Hin. destruct Hin as [<- | [<- | [<- | [<- | []]]]]; reflexivity. }
  rewrite (mux_Handler_clean s r Hc), (mux_Handler_clean s (setMethod m r) Hc).
  change (URL_Path (setMethod m r)) with (URL_Path r).
  rewrite mux_handler_routes.
  assert (Hw : forall next,
    (forall r st m out, effects (next (setMethod m r) (setLog out st)) = effects (next r st)) ->
    effects (withRequestLogging s next (setMethod m r) st)
    = effects (withRequestLogging s next r st)).
  { intros next Hnext.
    pose proof (withRequestLogging_effects s next r st m (st_log st) Hnext) as E.
    now rewrite setLog_same in E. }
  simpl in Hin. destruct Hin as [<- | [<- | [<- | [<- | []]]]]; simpl.
  - apply Hw, indexHandler_effects.
  - apply Hw, startHandler_effects.
  - apply Hw, endHandler_effects.
  - apply Hw, moveHandler_effects.
Qed.

(** C9.  On each registered path ("/", "/start", "/end", "/move"), two
    requests that differ only in their method (the same path, body and
    other fields, served by the same server from the same state) get the
    same response: the same status, the same headers and the same body.  No
    route handler reads the method, so a GET to /start is answered as a
    POST is. *)
Theorem response_independent_of_method (port : string) (infoPtr : option positive)
    (loggerOpts : Z)
    (mf : option GameState -> Logger -> U -> MoveResponse * GameState * list string * U)
    (heap heap' : gmap positive InfoResponse) s r st (m1 m2 : string) :
  New port infoPtr loggerOpts mf heap = Some (s, heap') ->
  In (URL_Path r) ["/"; "/start"; "/end"; "/move"]%string ->
  let w1 := st_w (stateOf (ServeHTTP s (setMethod m1 r) st)) in
  let w2 := st_w (stateOf (ServeHTTP s (setMethod m2 r) st)) in
  StatusCode w1 = StatusCode w2
  /\ ResponseHeader w1 = ResponseHeader w2
  /\ body w1 = body w2.
Proof.
  intros Hnew Hin. cbv zeta.
  destruct (New_inv _ _ _ _ _ _ _ Hnew) as (p & i & _ & _ & _ & _ & _ & _ & Hh).
  pose proof (ServeHTTP_effects_registered s r st m1 Hh Hin) as E1.
  pose proof (ServeHTTP_effects_registered s r st m2 Hh Hin) as E2.
  rewrite <- E2 in E1. unfold effects in E1. injection E1 as _ Hw _ _.
  now rewrite Hw.
Qed.

(** ** The claims about logging levels in the server *)

(** C10.  With the mask 0 every level method writes nothing and [Enabled]
    is false for every level: no level, the error level included, is
    enabled unconditionally.  So a server constructed with [loggerOpts] 0
    writes no log entry for any request, decode and encode failures
    included: the log after a request is the log before it, followed by
    nothing or, on the move route, by what the caller's move function
    wrote itself. *)
Theorem loggerOpts_zero_silent (port : string) (infoPtr : option positive)
    (mf : option GameState -> Logger -> U -> MoveResponse * GameState * list string * U)
    (heap heap' : gmap positive InfoResponse) s r st
    (format : string) (v : list arg) (out : list string) (opt : Z) :
  New port infoPtr 0 mf heap = Some (s, heap') ->
  logger s = NewLogger 0
  /\ Err (NewLogger 0) format v out = out
  /\ Warn (NewLogger 0) format v out = out
  /\ Info (NewLogger 0) format v out = out
  /\ Debug (NewLogger 0) format v out = out
  /\ Enabled (NewLogger 0) opt = false
  /\ exists lines,
       st_log (stateOf (ServeHTTP s r st)) = st_log st ++ lines
       /\ (lines = []
           \/ exists state, lines = snd (fst (moveFunc s state (logger s) (st_user st)))).
Proof.
  intros Hnew.
  destruct (New_inv _ _ _ _ _ _ _ Hnew) as (p & i & _ & _ & _ & _ & Hl & _ & Hh).
  split; [exact Hl|]. do 5 (split; [reflexivity|]).
  assert (He : forall o, Enabled (logger s) o = false) by (intros o; now rewrite Hl).
  assert (Hw : forall h, withRequestLogging s h = h)
    by (intros h; apply withRequestLogging_off, He).
  destruct (ServeHTTP_cases s r st Hh) as [[w ->] | [-> | [-> | [-> | ->]]]];
    rewrite ?Hw.
  - exists []. simpl. rewrite app_nil_r. auto.
  - exists []. split; [|now left]. rewrite app_nil_r.
    unfold indexHandler. destruct (negb _); [reflexivity|].
    destruct (Encode _ _) as [[e|] w]; simpl; [|reflexivity].
    now rewrite Err_spec, He.
  - exists []. split; [|now left]. rewrite app_nil_r.
    unfold startHandler. destruct (Decode _) as [e|[state|]]; simpl; [| |reflexivity].
    + now rewrite Err_spec, He.
    + now rewrite Info_spec, He.
  - exists []. split; [|now left]. rewrite app_nil_r.
    unfold endHandler. destruct (Decode _) as [e|[state|]]; simpl; [| |reflexivity].
    + now rewrite Err_spec, He.
    + now rewrite Info_spec, He.
  - unfold moveHandler. destruct (Decode _) as [e|state]; simpl.
    + exists []. rewrite app_nil_r, Err_spec, He. auto.
    + exists (snd (fst (moveFunc s state (logger s) (st_user st)))).
      split; [|right; now exists state].
      destruct (moveFunc s state (logger s) (st_user st)) as [[[resp after] lines] u]. simpl.
      destruct (Encode _ _) as [[e|] w]; simpl.
      * now rewrite Err_spec, He.
      * destruct state as [state|]; simpl; [|reflexivity].
        now rewrite Info_spec, He.
Qed.

(** ** The claims about the routes *)

Lemma Header_Get_Set_canonical (key key' value : string) (h : Header) :
  CanonicalMIMEHeaderKey key = CanonicalMIMEHeaderKey key' ->
  Header_Get (Header_Set key value h) key' = value.
Proof. intros Hk. unfold Header_Get, Header_Set. now rewrite Hk, lookup_insert_eq. Qed.

Lemma Header_Get_Set (key value : string) (h : Header) :
  Header_Get (Header_Set key value h) key = value.
Proof. now apply Header_Get_Set_canonical. Qed.

(** No handler writes to the heap. *)
Lemma ServeHTTP_heap s r st :
  Handler s = routes s -> st_heap (stateOf (ServeHTTP s r st)) = st_heap st.
Proof.
  intros Hh.
  assert (Hw : forall h, (forall r st, st_heap (stateOf (h r st)) = st_heap st) ->
                         st_heap (stateOf (withRequestLogging s h r st)) = st_heap st).
  { intros h Hheap. unfold withRequestLogging. destruct (Enabled _ _); [|apply Hheap].
    destruct (io_ReadAll (Body r)) as [[b [e|]] rest]; [reflexivity|]. now rewrite Hheap. }
  destruct (ServeHTTP_cases s r st Hh) as [[w ->] | [-> | [-> | [-> | ->]]]];
    [reflexivity | apply Hw; clear r st Hw; intros r st ..].
  - unfold indexHandler. destruct (negb _); [reflexivity|].
    now destruct (Encode _ _) as [[e|] w].
  - unfold startHandler. now destruct (Decode _) as [e|[state|]].
  - unfold endHandler. now destruct (Decode _) as [e|[state|]].
  - unfold moveHandler. destruct (Decode _) as [e|state]; [reflexivity|].
    destruct (moveFunc s state (logger s) (st_user st)) as [[[resp after] lines] u]. simpl.
    destruct (Encode _ _) as [[e|] w]; [reflexivity|]. now destruct state.
Qed.

(** C3.  Whatever info record the caller supplies, [New] overwrites its
    API version with the constant 1, in the record the caller's pointer
    refers to, and leaves its other fields as they are.  From then on,
    while the record stays as [New] left it (no request changes it), a
    request to "/" with a readable body, a GET in particular, is answered
    with status 200, content type application/json and the JSON encoding of
    the record with [apiversion] 1, whatever API version was supplied. *)
Theorem New_forces_apiVersion (port : string) (p : positive) (loggerOpts : Z)
    (mf : option GameState -> Logger -> U -> MoveResponse * GameState * list string * U)
    (heap : gmap positive InfoResponse) (i : InfoResponse) :
  heap !! p = Some i ->
  let i1 := mkInfoResponse "1" (Author i) (Color i) (Head i) (Tail i) (Version i) in
  exists s,
    New port (Some p) loggerOpts mf heap = Some (s, <[p := i1]> heap)
    /\ <[p := i1]> heap !! p = Some i1
    /\ (forall r st, st_heap (stateOf (ServeHTTP s r st)) = st_heap st)
    /\ forall r st,
         st_heap st !! p = Some i1 ->
         st_w st = httptest_NewRecorder ->
         URL_Path r = "/"%string -> RequestURI r <> "*"%string -> readErr (Body r) = None ->
         exists st',
           ServeHTTP s r st = Returned st'
           /\ StatusCode (st_w st') = 200%Z
           /\ Header_Get (ResponseHeader (st_w st')) "content-type" = "application/json"%string
           /\ body (st_w st')
              = "{" +:+ member "apiversion" (quoteString "1")
                +:+ "," +:+ member "author" (quoteString (Author i))
                +:+ "," +:+ member "color" (quoteString (Color i))
                +:+ "," +:+ member "head" (quoteString (Head i))
                +:+ "," +:+ member "tail" (quoteString (Tail i))
                +:+ "," +:+ member "version" (quoteString (Version i)) +:+ "}"
                +:+ str newline.
Proof.
  intros Hp i1.
  destruct (New port (Some p) loggerOpts mf heap) as [[s heap']|] eqn:Hnew.
  2:{ unfold New in Hnew. rewrite Hp in Hnew. discriminate. }
  destruct (New_inv _ _ _ _ _ _ _ Hnew) as (p' & i' & [= <-] & Hp' & -> & Hi & _ & _ & Hh).
  rewrite Hp in Hp'. injection Hp' as <-.
  exists s. split; [reflexivity|]. split; [apply lookup_insert_eq|].
  split; [intros r st; now apply ServeHTTP_heap|].
  intros r st Hcell Hw Hpath Huri Hread.
  rewrite (ServeHTTP_index s r st Hh Huri Hpath).
  rewrite (withRequestLogging_readable s _ r st Hread).
  rewrite indexHandler_root by (try exact Hpath; simpl; now rewrite Hw).
  eexists. split; [reflexivity|]. simpl. rewrite Hw, Hi, Hcell. simpl.
  split; [reflexivity|]. split; [apply Header_Get_Set|].
  unfold i1, Marshal_InfoResponse. simpl. rewrite !append_assoc. reflexivity.
Qed.

Lemma StatusCode_http_Error (w : ResponseWriter) (msg : string) (code : Z) :
  wroteHeader w = false -> StatusCode (http_Error w msg code) = code.
Proof.
  intros Hw. unfold http_Error, Write, WriteHeader. simpl. rewrite Hw. simpl.
  now destruct (writeErr w).
Qed.

(** C5, as the code has it.  A request whose path is "/start", "/end" or
    "/move" is answered by that route's handler, whatever its method, and
    not with status 404.  A request to any other path than "/" gets status
    404 when its path is clean (or its method is CONNECT, which the router
    does not canonicalize) and its body can be read (or the debug level is
    off).  A request to "/" is handled by the index handler whatever its
    method: the index handler checks the path only. *)
Theorem routing_by_path_only (port : string) (infoPtr : option positive) (loggerOpts : Z)
    (mf : option GameState -> Logger -> U -> MoveResponse * GameState * list string * U)
    (heap heap' : gmap positive InfoResponse) s r st :
  New port infoPtr loggerOpts mf heap = Some (s, heap') ->
  RequestURI r <> "*"%string ->
  (URL_Path r = "/"%string -> ServeHTTP s r st = withRequestLogging s (indexHandler s) r st)
  /\ (URL_Path r = "/start"%string ->
      ServeHTTP s r st = withRequestLogging s (startHandler s) r st)
  /\ (URL_Path r = "/end"%string ->
      ServeHTTP s r st = withRequestLogging s (endHandler s) r st)
  /\ (URL_Path r = "/move"%string ->
      ServeHTTP s r st = withRequestLogging s (moveHandler s) r st)
  /\ (~ In (URL_Path r) ["/"; "/start"; "/end"; "/move"]%string ->
      Method r = "CONNECT"%string \/ cleanPath (URL_Path r) = URL_Path r ->
      Enabled (logger s) LDebug = false \/ readErr (Body r) = None ->
      wroteHeader (st_w st) = false ->
      StatusCode (st_w (stateOf (ServeHTTP s r st))) = 404%Z).
Proof.
  intros Hnew Huri.
  destruct (New_inv _ _ _ _ _ _ _ Hnew) as (p & i & _ & _ & _ & _ & _ & _ & Hh).
  split; [now apply ServeHTTP_index|]. split; [now apply ServeHTTP_start|].
  split; [now apply ServeHTTP_end|]. split; [now apply ServeHTTP_move|].
  intros Hnot Hclean Hread Hw.
  assert (Hroute : mux_Handler (routes s) r = mux_handler (routes s) (URL_Path r)).
  { destruct Hclean as [Hm|Hc]; [|now apply mux_Handler_clean].
    unfold mux_Handler. now rewrite Hm, shouldRedirect_routes. }
  unfold ServeHTTP, mux_ServeHTTP. rewrite Hh.
  destruct (String.eqb_spec (RequestURI r) "*") as [E|_]; [contradiction|].
  rewrite Hroute, mux_handler_routes.
  assert (Hne : forall x, In x ["/"; "/start"; "/end"; "/move"]%string ->
                          String.eqb x (URL_Path r) = false).
  { intros x Hx. destruct (String.eqb_spec x (URL_Path r)) as [E|]; [|reflexivity].
    rewrite <- E in Hnot. contradiction. }
  rewrite !Hne by (simpl; tauto).
  destruct (hasPrefix (URL_Path r) "/"); [|simpl; now apply StatusCode_http_Error].
  assert (Hp : URL_Path r <> "/"%string) by (intros E; apply Hnot; rewrite E; now left).
  destruct Hread as [Hd|He].
  - rewrite withRequestLogging_off by exact Hd.
    rewrite indexHandler_other by exact Hp. simpl. now apply StatusCode_WriteHeader.
  - rewrite withRequestLogging_readable by exact He.
    rewrite indexHandler_other by exact Hp. simpl. now apply StatusCode_WriteHeader.
Qed.

(** C4, as the code has it.  For every request body that decodes to a
    game state, a request to /start (to /end), served on a fresh response,
    is answered as follows.  When the debug bit is not set, or the body can
    be read to its end without an error, the answer has status 200 and an
    empty body, and the handler makes one call of [Info]: when the info bit
    is set in the logger's mask, exactly one info entry is added to the log,
    naming the game ID, the turn and the snake ID and ending in "- Start"
    ("- End"); when it is not set, none is.  (The debug entry of the
    middleware comes before it when the debug bit is set.)  When the debug
    bit is set and the read of the body fails after the game state, the
    middleware answers with status 400 and an empty body before the handler
    runs: no call of [Info] is made, and the entry added to the log, when
    the error bit is set, tells the failed read. *)
Theorem start_end_decoded (port : string) (infoPtr : option positive) (loggerOpts : Z)
    (mf : option GameState -> Logger -> U -> MoveResponse * GameState * list string * U)
    (heap heap' : gmap positive InfoResponse) s r st (state : GameState) (what : string) :
  New port infoPtr loggerOpts mf heap = Some (s, heap') ->
  RequestURI r <> "*"%string ->
  Decode (Body r) = inr (Some state) ->
  st_w st = httptest_NewRecorder ->
  URL_Path r = "/start"%string /\ what = "Start"%string
  \/ URL_Path r = "/end"%string /\ what = "End"%string ->
  let debugEntries :=
    if Enabled (logger s) LDebug
    then ["DEBUG " +:+ Method r +:+ " " +:+ URL_Path r +:+ " " +:+ data (Body r) +:+ str newline]
    else [] in
  let infoEntries :=
    if Enabled (logger s) LInfo
    then ["INFO Game ID " +:+ Game_ID (GameState_Game state)
          +:+ " [Turn " +:+ itoa (GameState_Turn state)
          +:+ "] Snake ID " +:+ Battlesnake_ID (GameState_You state) +:+ " - " +:+ what]
    else [] in
  (Enabled (logger s) LDebug = false \/ readErr (Body r) = None ->
   exists st',
     ServeHTTP s r st = Returned st'
     /\ StatusCode (st_w st') = 200%Z /\ body (st_w st') = ""%string
     /\ st_log st' = st_log st ++ debugEntries ++ infoEntries)
  /\ (forall e,
        Enabled (logger s) LDebug = true -> readErr (Body r) = Some e ->
        exists st',
          ServeHTTP s r st = Returned st'
          /\ StatusCode (st_w st') = 400%Z /\ body (st_w st') = ""%string
          /\ st_log st'
             = st_log st ++ (if Enabled (logger s) LError
                             then ["ERROR Failed to read request body: " +:+ Error e]
                             else [])).
Proof.
  intros Hnew Huri Hdec Hw Hroute. cbv zeta.
  destruct (New_inv _ _ _ _ _ _ _ Hnew) as (p & i & _ & _ & _ & _ & _ & _ & Hh).
  destruct Hroute as [[Hpath ->] | [Hpath ->]].
  - rewrite (ServeHTTP_start s r st Hh Huri Hpath). split.
    + intros Hread. rewrite (withRequestLogging_passes s _ r st Hread).
      rewrite (startHandler_decoded s r _ state Hdec).
      eexists. split; [reflexivity|]. simpl. rewrite Hw.
      split; [reflexivity|]. split; [reflexivity|]. now rewrite <- app_assoc.
    + intros e Hd He. rewrite (withRequestLogging_unreadable s _ r st e Hd He).
      eexists. split; [reflexivity|]. simpl. rewrite Hw. repeat split.
  - rewrite (ServeHTTP_end s r st Hh Huri Hpath). split.
    + intros Hread. rewrite (withRequestLogging_passes s _ r st Hread).
      rewrite (endHandler_decoded s r _ state Hdec).
      eexists. split; [reflexivity|]. simpl. rewrite Hw.
      split; [reflexivity|]. split; [reflexivity|]. now rewrite <- app_assoc.
    + intros e Hd He. rewrite (withRequestLogging_unreadable s _ r st e Hd He).
      eexists. split; [reflexivity|]. simpl. rewrite Hw. repeat split.
Qed.

(** A body whose first JSON value the scanner rejects, or that ends
    before the value does, fails to decode, whatever the typed decoding
    does. *)
Lemma Decode_readValue_error (b : ReadCloser) (e : error) :
  readValue (data b) (readErr b) = inl e -> Decode b = inl e.
Proof. intros Hr. unfold Decode. now rewrite Hr. Qed.

(** C2, as the code has it.  For every request to /start, /end or /move
    whose body fails to decode (the decoder returns an error: the first
    JSON value of the body is malformed or incomplete, or does not fit a
    game state), served on a fresh response, the response has status 400
    and the move function is not invoked (the caller's state is left as it
    was, and the outcome is the same under any other move function).  One
    call of [Err] is made: when the error bit is set in the logger's mask,
    one error entry is added to the log; when it is not set, none is.  The
    entry describes the decode failure (after the debug entry of the
    middleware when the debug bit is set), unless the debug bit is set and
    the read of the body to its end fails: then the middleware answers
    before the handler runs, and the entry tells the failed read. *)
Theorem decode_failure_bad_request (port : string) (infoPtr : option positive)
    (loggerOpts : Z)
    (mf : option GameState -> Logger -> U -> MoveResponse * GameState * list string * U)
    (heap heap' : gmap positive InfoResponse) s r st (e : error) (route : string) :
  New port infoPtr loggerOpts mf heap = Some (s, heap') ->
  RequestURI r <> "*"%string ->
  Decode (Body r) = inl e ->
  st_w st = httptest_NewRecorder ->
  In route ["start"; "end"; "move"]%string ->
  URL_Path r = "/" +:+ route ->
  (exists st',
     ServeHTTP s r st = Returned st'
     /\ StatusCode (st_w st') = 400%Z
     /\ st_user st' = st_user st
     /\ (Enabled (logger s) LDebug = false \/ readErr (Body r) = None ->
         st_log st'
         = st_log st
           ++ (if Enabled (logger s) LDebug
               then ["DEBUG " +:+ Method r +:+ " " +:+ URL_Path r +:+ " "
                     +:+ data (Body r) +:+ str newline]
               else [])
           ++ (if Enabled (logger s) LError
               then ["ERROR Failed to decode " +:+ route +:+ " request body: " +:+ Error e]
               else []))
     /\ (forall e',
           Enabled (logger s) LDebug = true -> readErr (Body r) = Some e' ->
           st_log st'
           = st_log st
             ++ (if Enabled (logger s) LError
                 then ["ERROR Failed to read request body: " +:+ Error e']
                 else [])))
  /\ (forall mf2 s2 heap2,
        New port infoPtr loggerOpts mf2 heap = Some (s2, heap2) ->
        ServeHTTP s2 r st = ServeHTTP s r st).
Proof.
  intros Hnew Huri Hdec Hw Hin Hpath.
  destruct (New_inv _ _ _ _ _ _ _ Hnew) as (p & i & _ & _ & _ & _ & Hl & _ & Hh).
  pose (expected := fun route : string =>
    if Enabled (logger s) LDebug
    then match readErr (Body r) with
         | Some e' =>
             Returned
               (setW (WriteHeader StatusBadRequest (st_w st))
                  (setLog (st_log st ++
                           (if Enabled (logger s) LError
                            then ["ERROR Failed to read request body: " +:+ Error e']
                            else [])) st))
         | None =>
             Returned
               (setW (WriteHeader StatusBadRequest (st_w st))
                  (setLog
                     ((st_log st
                       ++ ["DEBUG " +:+ Method r +:+ " " +:+ URL_Path r +:+ " "
                           +:+ data (Body r) +:+ str newline])
                      ++ (if Enabled (logger s) LError
                          then ["ERROR Failed to decode " +:+ route +:+ " request body: "
                                +:+ Error e]
                          else [])) st))
         end
    else
      Returned
        (setW (WriteHeader StatusBadRequest (st_w st))
           (setLog
              (st_log st
               ++ (if Enabled (logger s) LError
                   then ["ERROR Failed to decode " +:+ route +:+ " request body: "
                         +:+ Error e]
                   else [])) st))).
  assert (Hwrap : forall s0 h (route0 : string),
    logger s0 = logger s ->
    (forall st1, h r st1
       = Returned
           (setW (WriteHeader StatusBadRequest (st_w st1))
              (setLog (st_log st1 ++
                       (if Enabled (logger s) LError
                        then ["ERROR Failed to decode " +:+ route0 +:+ " request body: "
                              +:+ Error e]
                        else [])) st1))) ->
    withRequestLogging s0 h r st = expected route0).
  { intros s0 h route0 Hl0 Hh1. unfold expected.
    destruct (Enabled (logger s) LDebug) eqn:Hd.
    - destruct (readErr (Body r)) as [e'|] eqn:He.
      + rewrite <- Hl0 in Hd |- *. now apply withRequestLogging_unreadable.
      + rewrite (withRequestLogging_readable s0 h r st He), Hl0, Hd. now rewrite Hh1.
    - rewrite withRequestLogging_off by (now rewrite Hl0). now rewrite Hh1. }
  assert (Hserve : forall s0, Handler s0 = routes s0 -> logger s0 = logger s ->
                              ServeHTTP s0 r st = expected route).
  { intros s0 Hh0 Hl0. simpl in Hin. destruct Hin as [<- | [<- | [<- | []]]].
    - rewrite (ServeHTTP_start s0 r st Hh0 Huri Hpath). apply Hwrap; [exact Hl0|].
      intros st1. rewrite (startHandler_failed s0 r st1 e Hdec). now rewrite Hl0.
    - rewrite (ServeHTTP_end s0 r st Hh0 Huri Hpath). apply Hwrap; [exact Hl0|].
      intros st1. rewrite (endHandler_failed s0 r st1 e Hdec). now rewrite Hl0.
    - rewrite (ServeHTTP_move s0 r st Hh0 Huri Hpath). apply Hwrap; [exact Hl0|].
      intros st1. rewrite (moveHandler_failed s0 r st1 e Hdec). now rewrite Hl0. }
  split.
  - rewrite (Hserve s Hh eq_refl). unfold expected.
    destruct (Enabled (logger s) LDebug) eqn:Hd.
    + destruct (readErr (Body r)) as [e'|] eqn:He.
      * eexists. split; [reflexivity|]. simpl. rewrite Hw.
        split; [reflexivity|]. split; [reflexivity|]. split.
        -- intros [Hf | Hn]; discriminate.
        -- intros e0 _ [= <-]. reflexivity.
      * eexists. split; [reflexivity|]. simpl. rewrite Hw.
        split; [reflexivity|]. split; [reflexivity|]. split.
        -- intros _. now rewrite <- app_assoc.
        -- intros e0 _ Hn. discriminate Hn.
    + eexists. split; [reflexivity|]. simpl. rewrite Hw.
      split; [reflexivity|]. split; [reflexivity|]. split.
      * intros _. reflexivity.
      * intros e0 Hf. discriminate Hf.
  - intros mf2 s2 heap2 Hnew2.
    destruct (New_inv _ _ _ _ _ _ _ Hnew2) as (p2 & i2 & _ & _ & _ & _ & Hl2 & _ & Hh2).
    rewrite (Hserve s Hh eq_refl). apply Hserve; [exact Hh2|]. now rewrite Hl2, Hl.
Qed.


(** ** The stream decoder and what follows the first value *)

Lemma scanValue_append (more : string) (data : string) :
  forall (s : scanner) (k n : nat),
    scanValue s data k = ScanDone n -> scanValue s (data +:+ more) k = ScanDone n.
Proof.
  induction data as [|c data IH]; intros s k n Hs; [discriminate Hs|].
  rewrite append_cons. simpl in Hs |- *.
  destruct (scan_step s c) as [s' code].
  destruct code; try exact Hs; try (now apply IH).
  - destruct (fnEndValue s' " ") as [s'' code']. destruct code'; try exact Hs; now apply IH.
  - destruct (fnEndValue s' " ") as [s'' code']. destruct code'; try exact Hs; now apply IH.
Qed.

Lemma scanValue_bounds (data : string) :
  forall (s : scanner) (k n : nat),
    scanValue s data k = ScanDone n -> (k <= n <= k + String.length data)%nat.
Proof.
  induction data as [|c data IH]; intros s k n Hs; [discriminate Hs|].
  simpl in Hs |- *.
  assert (Hrec : forall sc : scanner, scanValue sc data (S k) = ScanDone n ->
                                      (k <= n <= k + S (String.length data))%nat).
  { intros sc H1. apply IH in H1. lia. }
  destruct (scan_step s c) as [s' code].
  destruct code; try discriminate Hs; try (now apply (Hrec s')).
  - destruct (fnEndValue s' " ") as [s'' code'].
    destruct code'; try (now apply (Hrec s'')). injection Hs as <-. lia.
  - destruct (fnEndValue s' " ") as [s'' code'].
    destruct code'; try (now apply (Hrec s'')). injection Hs as <-. lia.
  - injection Hs as <-. lia.
Qed.

Lemma substring_append (a b : string) :
  forall n : nat, (n <= String.length a)%nat -> substring 0 n (a +:+ b) = substring 0 n a.
Proof.
  induction a as [|c a IH]; intros n Hn.
  - simpl in Hn. assert (n = 0%nat) as -> by lia. now destruct b.
  - destruct n as [|n]; [reflexivity|].
    rewrite append_cons. simpl. rewrite IH; [reflexivity | simpl in Hn; lia].
Qed.

(** X1.  The decoder reads one JSON value from the stream: when the scan
    of [data] ends its first value after [n] bytes, the result of [Decode]
    is that of the typed decoding of these bytes, whatever bytes follow
    [data] in the body and however the stream ends after them.  So the
    start handler answers the longer body as it answers [data]. *)
Theorem Decode_leaves_rest (data more : string) (e : option error) (n : nat) s r st :
  scanValue scanner_reset data 0 = ScanDone n ->
  Decode (mkReadCloser (data +:+ more) e) = unmarshal (substring 0 n data)
  /\ Decode (bytes_NewBuffer data) = unmarshal (substring 0 n data)
  /\ startHandler s (setBody (mkReadCloser (data +:+ more) e) r) st
     = startHandler s (setBody (bytes_NewBuffer data) r) st.
Proof.
  intros Hs.
  assert (H1 : Decode (mkReadCloser (data +:+ more) e) = unmarshal (substring 0 n data)).
  { unfold Decode, readValue. simpl.
    rewrite (scanValue_append more data _ _ _ Hs).
    rewrite substring_append; [reflexivity|].
    apply scanValue_bounds in Hs. lia. }
  assert (H2 : Decode (bytes_NewBuffer data) = unmarshal (substring 0 n data)).
  { unfold Decode, readValue. simpl. now rewrite Hs. }
  split; [exact H1|]. split; [exact H2|].
  unfold startHandler. simpl. now rewrite H1, H2.
Qed.

(** X2.  A body that decodes to a nil state (the literal [null] leaves
    nil in the handlers' pointer) is no decode failure: the start and the
    end handler panic when they read the game ID through the pointer, and
    the move handler calls the move function with the nil state, writes its
    response, and then panics in the same way. *)
Theorem nil_state_panics s r st (resp : MoveResponse) (after : GameState)
    (lines : list string) (u : U) :
  Decode (Body r) = inr None ->
  moveFunc s None (logger s) (st_user st) = (resp, after, lines, u) ->
  writeErr (st_w st) = None ->
  startHandler s r st = Panicked st
  /\ endHandler s r st = Panicked st
  /\ exists st',
       moveHandler s r st = Panicked st'
       /\ st_user st' = u
       /\ st_log st' = st_log st ++ lines
       /\ snd (Write (Marshal_MoveResponse resp +:+ str newline)
                 (setHeader "Content-Type" "application/json" (st_w st))) = st_w st'.
Proof.
  intros Hd Hm He.
  split; [unfold startHandler; now rewrite Hd|].
  split; [unfold endHandler; now rewrite Hd|].
  unfold moveHandler, Encode. rewrite Hd, Hm.
  destruct (Write _ (setHeader _ _ (st_w (setUser u (setLog (st_log st ++ lines) st)))))
    as [[e|] w] eqn:Hw.
  - pose proof (Write_no_error (Marshal_MoveResponse resp +:+ str newline)
                  (setHeader "Content-Type" "application/json" (st_w st)) He) as Hn.
    simpl in Hw. rewrite Hw in Hn. discriminate Hn.
  - eexists. split; [reflexivity|]. simpl.
    split; [reflexivity|]. split; [reflexivity|].
    simpl in Hw. now rewrite Hw.
Qed.

(** ** The server as a whole: routing written out *)

Lemma ServeHTTP_unfold s r st :
  Handler s = routes s ->
  ServeHTTP s r st
  = if String.eqb (RequestURI r) "*" then
      Returned (setW (WriteHeader StatusBadRequest
                        (if ProtoAtLeast11 r
                         then setHeader "Connection" "close" (st_w st) else st_w st)) st)
    else if negb (String.eqb (Method r) "CONNECT")
            && negb (String.eqb (cleanPath (URL_Path r)) (URL_Path r)) then
      Returned (setW (mux_redirect r (cleanPath (URL_Path r)) (st_w st)) st)
    else if String.eqb "/" (URL_Path r) then withRequestLogging s (indexHandler s) r st
    else if String.eqb "/start" (URL_Path r) then withRequestLogging s (startHandler s) r st
    else if String.eqb "/end" (URL_Path r) then withRequestLogging s (endHandler s) r st
    else if String.eqb "/move" (URL_Path r) then withRequestLogging s (moveHandler s) r st
    else if hasPrefix (URL_Path r) "/" then withRequestLogging s (indexHandler s) r st
    else Returned (setW (http_Error (st_w st) "404 page not found" StatusNotFound) st).
Proof.
  intros Hh. unfold ServeHTTP, mux_ServeHTTP. rewrite Hh.
  destruct (String.eqb (RequestURI r) "*"); [reflexivity|].
  unfold mux_Handler. rewrite !shouldRedirect_routes, mux_handler_routes.
  destruct (String.eqb (Method r) "CONNECT"); simpl.
  - repeat match goal with |- context [if ?b then _ else _] => destruct b end; reflexivity.
  - destruct (negb (String.eqb (cleanPath (URL_Path r)) (URL_Path r))); [reflexivity|].
    repeat match goal with |- context [if ?b then _ else _] => destruct b end; reflexivity.
Qed.

Lemma hasPrefix_append (p x : string) : hasPrefix (p +:+ x) p = true.
Proof.
  induction p as [|c p IH]; [now destruct x|].
  rewrite append_cons. simpl. now rewrite Ascii.eqb_refl, IH.
Qed.

(** The middleware either answers itself (the body could not be read) or
    calls the handler on the request as it came, with a longer log. *)
Lemma withRequestLogging_cases s next r st :
  (exists e,
     Enabled (logger s) LDebug = true /\ readErr (Body r) = Some e
     /\ withRequestLogging s next r st
        = Returned (setW (WriteHeader StatusBadRequest (st_w st))
                      (setLog (st_log st ++
                               (if Enabled (logger s) LError
                                then ["ERROR Failed to read request body: " +:+ Error e]
                                else [])) st)))
  \/ (exists d,
        withRequestLogging s next r st = next r (setLog (st_log st ++ d) st)
        /\ (d = [] \/ exists entry, d = [entry] /\ hasPrefix entry "DEBUG " = true)).
Proof.
  destruct (Enabled (logger s) LDebug) eqn:Hd.
  - destruct (readErr (Body r)) as [e|] eqn:He.
    + left. exists e. split; [reflexivity|]. split; [reflexivity|].
      rewrite (withRequestLogging_failed s next r st e Hd He), Err_spec.
      destruct (Enabled (logger s) LError); [|now rewrite app_nil_r].
      simpl. now rewrite append_nil_r.
    + right. eexists. split; [apply (withRequestLogging_read s next r st Hd He)|].
      right. eexists. split; [reflexivity | apply hasPrefix_append].
  - right. exists []. rewrite (withRequestLogging_off s next Hd), app_nil_r, setLog_same.
    split; [reflexivity | now left].
Qed.

Lemma handler_log_shape s (h : HandlerFunc) r st :
  In h [indexHandler s; startHandler s; endHandler s; moveHandler s] ->
  exists lines f,
    st_log (stateOf (h r st)) = st_log st ++ lines ++ f
    /\ (lines = []
        \/ exists state, lines = snd (fst (moveFunc s state (logger s) (st_user st))))
    /\ (f = []
        \/ exists entry,
             f = [entry]
             /\ (hasPrefix entry "INFO " = true \/ hasPrefix entry "ERROR " = true)).
Proof.
  assert (Hnone : forall out : list string,
            exists lines f : list string,
              out = out ++ lines ++ f
              /\ (lines = []
                  \/ exists state,
                       lines = snd (fst (moveFunc s state (logger s) (st_user st))))
              /\ (f = []
                  \/ exists entry,
                       f = [entry]
                       /\ (hasPrefix entry "INFO " = true \/ hasPrefix entry "ERROR " = true))).
  { intros out. exists [], []. rewrite app_nil_r. auto. }
  assert (Herr : forall (format : string) (v : list arg) (out : list string),
            exists lines f : list string,
              Err (logger s) format v out = out ++ lines ++ f
              /\ (lines = []
                  \/ exists state,
                       lines = snd (fst (moveFunc s state (logger s) (st_user st))))
              /\ (f = []
                  \/ exists entry,
                       f = [entry]
                       /\ (hasPrefix entry "INFO " = true \/ hasPrefix entry "ERROR " = true))).
  { intros format v out. rewrite Err_spec. destruct (Enabled _ _); [|apply Hnone].
    exists [], ["ERROR " +:+ Sprintf format v]. split; [reflexivity|]. split; [now left|].
    right. eexists. split; [reflexivity|]. right. apply hasPrefix_append. }
  assert (Hinfo : forall (format : string) (v : list arg) (out : list string),
            exists lines f : list string,
              Info (logger s) format v out = out ++ lines ++ f
              /\ (lines = []
                  \/ exists state,
                       lines = snd (fst (moveFunc s state (logger s) (st_user st))))
              /\ (f = []
                  \/ exists entry,
                       f = [entry]
                       /\ (hasPrefix entry "INFO " = true \/ hasPrefix entry "ERROR " = true))).
  { intros format v out. rewrite Info_spec. destruct (Enabled _ _); [|apply Hnone].
    exists [], ["INFO " +:+ Sprintf format v]. split; [reflexivity|]. split; [now left|].
    right. eexists. split; [reflexivity|]. left. apply hasPrefix_append. }
  intros Hin. simpl in Hin. destruct Hin as [<- | [<- | [<- | [<- | []]]]].
  - unfold indexHandler. destruct (negb _); [apply Hnone|].
    destruct (Encode _ _) as [[e|] w]; simpl; [apply Herr | apply Hnone].
  - unfold startHandler. destruct (Decode _) as [e|[state|]]; simpl;
      [apply Herr | apply Hinfo | apply Hnone].
  - unfold endHandler. destruct (Decode _) as [e|[state|]]; simpl;
      [apply Herr | apply Hinfo | apply Hnone].
  - unfold moveHandler. destruct (Decode _) as [e|state]; simpl; [apply Herr|].
    assert (Hmove : moveFunc s state (logger s) (st_user st)
                    = moveFunc s state (logger s) (st_user st)) by reflexivity.
    destruct (moveFunc s state (logger s) (st_user st)) as [[[resp after] lines] u] eqn:Hm in Hmove |- *.
    assert (Hlines : lines = [] \/ exists state0,
                       lines = snd (fst (moveFunc s state0 (logger s) (st_user st))))
      by (right; exists state; now rewrite Hm).
    simpl. destruct (Encode _ _) as [[e|] w]; simpl.
    + rewrite Err_spec. destruct (Enabled _ _).
      * exists lines, ["ERROR " +:+ Sprintf "Failed to encode move response, %s" [AError e]].
        split; [now rewrite <- app_assoc|]. split; [exact Hlines|].
        right. eexists. split; [reflexivity|]. right. apply hasPrefix_append.
      * exists lines, []. rewrite app_nil_r. auto.
    + destruct state as [state|]; simpl.
      * rewrite Info_spec. destruct (Enabled _ _).
        -- eexists lines, [_]. split; [now rewrite <- app_assoc|]. split; [exact Hlines|].
           right. eexists. split; [reflexivity|]. left. apply hasPrefix_append.
        -- exists lines, []. rewrite app_nil_r. auto.
      * exists lines, []. rewrite app_nil_r. auto.
Qed.

(** X4.  A request only adds to the log, and little: the log after it is
    the log before it, then at most one debug entry, then what the move
    function wrote itself (on the move route), then at most one entry of
    the server, at the info or at the error level.  The server writes no
    entry at the warning level. *)
Theorem ServeHTTP_log_shape (port : string) (infoPtr : option positive) (loggerOpts : Z)
    (mf : option GameState -> Logger -> U -> MoveResponse * GameState * list string * U)
    (heap heap' : gmap positive InfoResponse) s r st :
  New port infoPtr loggerOpts mf heap = Some (s, heap') ->
  exists d lines f,
    st_log (stateOf (ServeHTTP s r st)) = st_log st ++ d ++ lines ++ f
    /\ (d = [] \/ exists entry, d = [entry] /\ hasPrefix entry "DEBUG " = true)
    /\ (lines = []
        \/ exists state, lines = snd (fst (moveFunc s state (logger s) (st_user st))))
    /\ (f = []
        \/ exists entry,
             f = [entry]
             /\ (hasPrefix entry "INFO " = true \/ hasPrefix entry "ERROR " = true)).
Proof.
  intros Hnew.
  destruct (New_inv _ _ _ _ _ _ _ Hnew) as (p & i & _ & _ & _ & _ & _ & _ & Hh).
  assert (Hwrapped : forall h,
            In h [indexHandler s; startHandler s; endHandler s; moveHandler s] ->
            exists d lines f,
              st_log (stateOf (withRequestLogging s h r st)) = st_log st ++ d ++ lines ++ f
              /\ (d = [] \/ exists entry, d = [entry] /\ hasPrefix entry "DEBUG " = true)
              /\ (lines = []
                  \/ exists state,
                       lines = snd (fst (moveFunc s state (logger s) (st_user st))))
              /\ (f = []
                  \/ exists entry,
                       f = [entry]
                       /\ (hasPrefix entry "INFO " = true
                           \/ hasPrefix entry "ERROR " = true))).
  { intros h Hin.
    destruct (withRequestLogging_cases s h r st) as [(e & _ & _ & ->) | (d & -> & Hd)].
    - simpl. destruct (Enabled (logger s) LError).
      + exists [], [], ["ERROR Failed to read request body: " +:+ Error e].
        split; [reflexivity|]. split; [now left|]. split; [now left|].
        right. eexists. split; [reflexivity|]. right. reflexivity.
      + exists [], [], []. auto.
    - destruct (handler_log_shape s h r (setLog (st_log st ++ d) st) Hin)
        as (lines & f & Hlog & Hlines & Hf).
      exists d, lines, f. rewrite Hlog. simpl. rewrite <- app_assoc. auto. }
  destruct (ServeHTTP_cases s r st Hh) as [[w ->] | [-> | [-> | [-> | ->]]]].
  - exists [], [], []. simpl. rewrite app_nil_r. auto.
  - apply Hwrapped. simpl. tauto.
  - apply Hwrapped. simpl. tauto.
  - apply Hwrapped. simpl. tauto.
  - apply Hwrapped. simpl. tauto.
Qed.

(** X6.  The move function is invoked for no request but one to the path
    "/move" itself: a request to any other path, "/move/" and "/Move"
    included, leaves the caller's state as it was, whatever its method and
    its body. *)
Theorem move_function_only_on_move (port : string) (infoPtr : option positive)
    (loggerOpts : Z)
    (mf : option GameState -> Logger -> U -> MoveResponse * GameState * list string * U)
    (heap heap' : gmap positive InfoResponse) s r st :
  New port infoPtr loggerOpts mf heap = Some (s, heap') ->
  URL_Path r <> "/move"%string ->
  st_user (stateOf (ServeHTTP s r st)) = st_user st.
Proof.
  intros Hnew Hpath.
  destruct (New_inv _ _ _ _ _ _ _ Hnew) as (p & i & _ & _ & _ & _ & _ & _ & Hh).
  assert (Hwrapped : forall h,
            (forall st1, st_user (stateOf (h r st1)) = st_user st1) ->
            st_user (stateOf (withRequestLogging s h r st)) = st_user st).
  { intros h Huser.
    destruct (withRequestLogging_cases s h r st) as [(e & _ & _ & ->) | (d & -> & _)];
      [reflexivity | now rewrite Huser]. }
  assert (Hindex : forall st1, st_user (stateOf (indexHandler s r st1)) = st_user st1).
  { intros st1. unfold indexHandler. destruct (negb _); [reflexivity|].
    now destruct (Encode _ _) as [[e|] w]. }
  rewrite (ServeHTTP_unfold s r st Hh).
  destruct (String.eqb (RequestURI r) "*"); [reflexivity|].
  destruct (negb _ && negb _); [reflexivity|].
  destruct (String.eqb "/" (URL_Path r)); [now apply Hwrapped|].
  destruct (String.eqb "/start" (URL_Path r)).
  { apply Hwrapped. intros st1. unfold startHandler.
    now destruct (Decode (Body r)) as [e|[state|]]. }
  destruct (String.eqb "/end" (URL_Path r)).
  { apply Hwrapped. intros st1. unfold endHandler.
    now destruct (Decode (Body r)) as [e|[state|]]. }
  destruct (String.eqb_spec "/move" (URL_Path r)) as [E|_]; [now contradiction Hpath|].
  destruct (hasPrefix (URL_Path r) "/"); [now apply Hwrapped | reflexivity].
Qed.


(** ** Construction and start *)

(** X8.  [Start] returns the error of a failed listen at once and logs
    nothing.  When the listener is bound it writes the start entry with the
    address through the embedded logger's own [Printf], which no level
    gates: the entry is written whatever the mask, the mask 0 included.
    The notice that debug logging is on follows it when the debug bit is
    set, and only then. *)
Theorem Start_entry_not_gated (port : string) (infoPtr : option positive) (loggerOpts : Z)
    (mf : option GameState -> Logger -> U -> MoveResponse * GameState * list string * U)
    (heap heap' : gmap positive InfoResponse) s (e : error) (addr : string)
    (out : list string) :
  New port infoPtr loggerOpts mf heap = Some (s, heap') ->
  Start s (inl e) out = (Some e, out)
  /\ Start s (inr addr) out
     = (None,
        out ++ ["START server running at " +:+ addr +:+ "..." +:+ str newline]
            ++ (if negb (Z.eqb (Z.land loggerOpts LDebug) 0)
                then ["DEBUG request debug logging enabled"%string] else []))
  /\ (loggerOpts = 0%Z ->
      snd (Start s (inr addr) out)
      = out ++ ["START server running at " +:+ addr +:+ "..." +:+ str newline]).
Proof.
  intros Hnew.
  destruct (New_inv _ _ _ _ _ _ _ Hnew) as (p & i & _ & _ & _ & _ & Hl & _ & _).
  split; [reflexivity|].
  assert (Hs : Start s (inr addr) out
               = (None,
                  out ++ ["START server running at " +:+ addr +:+ "..." +:+ str newline]
                      ++ (if negb (Z.eqb (Z.land loggerOpts LDebug) 0)
                          then ["DEBUG request debug logging enabled"%string] else []))).
  { unfold Start. rewrite Debug_spec, Hl. unfold Enabled, NewLogger, log_Printf. simpl opts.
    destruct (negb (Z.eqb (Z.land loggerOpts LDebug) 0)).
    - now rewrite <- app_assoc.
    - reflexivity. }
  split; [exact Hs|].
  intros ->. rewrite Hs. reflexivity.
Qed.

(** X9.  [New] writes to the caller's record and to nothing else: every
    other record of the heap is as it was.  Constructing another server
    over the same record, with whatever port, options and move function,
    succeeds, leaves the heap as the first construction left it, and gives
    a server that shares the record with the first.  With a nil info
    pointer [New] panics. *)
Theorem New_touches_one_record (port : string) (infoPtr : option positive) (loggerOpts : Z)
    (mf : option GameState -> Logger -> U -> MoveResponse * GameState * list string * U)
    (heap heap' : gmap positive InfoResponse) s :
  New port infoPtr loggerOpts mf heap = Some (s, heap') ->
  infoPtr = Some (info s)
  /\ (forall q, q <> info s -> heap' !! q = heap !! q)
  /\ (forall port2 loggerOpts2 mf2,
        exists s2,
          New port2 (Some (info s)) loggerOpts2 mf2 heap' = Some (s2, heap')
          /\ info s2 = info s)
  /\ New port None loggerOpts mf heap = None.
Proof.
  intros Hnew.
  destruct (New_inv _ _ _ _ _ _ _ Hnew) as (p & i & -> & Hp & -> & <- & _ & _ & _).
  split; [reflexivity|].
  split; [intros q Hq; now rewrite lookup_insert_ne by congruence|].
  split; [|reflexivity].
  intros port2 loggerOpts2 mf2. unfold New at 1. rewrite lookup_insert_eq. simpl.
  rewrite insert_insert_eq. eexists. split; reflexivity.
Qed.

(** X10.  The server keeps the pointer to the info record, not a copy:
    the index route encodes the record as it is when the request is
    served.  A change the caller makes to the record after construction,
    to its API version as to any other field, shows in the next answer. *)
Theorem index_serves_current_record (port : string) (infoPtr : option positive)
    (loggerOpts : Z)
    (mf : option GameState -> Logger -> U -> MoveResponse * GameState * list string * U)
    (heap heap' : gmap positive InfoResponse) s r st (j : InfoResponse) :
  New port infoPtr loggerOpts mf heap = Some (s, heap') ->
  st_heap st = <[info s := j]> heap' ->
  st_w st = httptest_NewRecorder ->
  URL_Path r = "/"%string -> RequestURI r <> "*"%string -> readErr (Body r) = None ->
  exists st',
    ServeHTTP s r st = Returned st'
    /\ StatusCode (st_w st') = 200%Z
    /\ body (st_w st')
       = "{" +:+ member "apiversion" (quoteString (APIVersion j))
         +:+ "," +:+ member "author" (quoteString (Author j))
         +:+ "," +:+ member "color" (quoteString (Color j))
         +:+ "," +:+ member "head" (quoteString (Head j))
         +:+ "," +:+ member "tail" (quoteString (Tail j))
         +:+ "," +:+ member "version" (quoteString (Version j)) +:+ "}"
         +:+ str newline.
Proof.
  intros Hnew Hheap Hw Hpath Huri Hread.
  destruct (New_inv _ _ _ _ _ _ _ Hnew) as (p & i & _ & _ & _ & _ & _ & _ & Hh).
  rewrite (ServeHTTP_index s r st Hh Huri Hpath).
  rewrite (withRequestLogging_readable s _ r st Hread).
  rewrite indexHandler_root by (try exact Hpath; simpl; now rewrite Hw).
  eexists. split; [reflexivity|]. simpl. rewrite Hw, Hheap, lookup_insert_eq. simpl.
  split; [reflexivity|].
  unfold Marshal_InfoResponse. rewrite !append_assoc. reflexivity.
Qed.

(** ** Bodies without a value, and bodies whose read fails *)

Lemma scanValue_spaces (data : string) :
  nonSpace data = false -> forall k : nat, scanValue scanner_reset data k = ScanMore scanner_reset.
Proof.
  induction data as [|c data IH]; intros Hs k; [reflexivity|].
  simpl in Hs. apply orb_false_elim in Hs as [Hc Hs].
  apply negb_false_iff in Hc.
  simpl. unfold scan_step, fnBeginValue. simpl. rewrite Hc. now apply IH.
Qed.

Lemma readValue_spaces (data : string) :
  nonSpace data = false -> readValue data None = inl io_EOF.
Proof.
  intros Hs. unfold readValue. rewrite (scanValue_spaces data Hs). simpl. now rewrite Hs.
Qed.

(** X11.  A request to /start, /end or /move with an empty body, or a body
    of white space only, is a decode failure: the decoder returns the end
    of file, the response has status 400, the move function is not
    invoked, and the error entry, written when the error bit is set, says
    EOF. *)
Theorem empty_body_bad_request (port : string) (infoPtr : option positive)
    (loggerOpts : Z)
    (mf : option GameState -> Logger -> U -> MoveResponse * GameState * list string * U)
    (heap heap' : gmap positive InfoResponse) s r st (route : string) :
  New port infoPtr loggerOpts mf heap = Some (s, heap') ->
  RequestURI r <> "*"%string ->
  readErr (Body r) = None ->
  nonSpace (data (Body r)) = false ->
  st_w st = httptest_NewRecorder ->
  In route ["start"; "end"; "move"]%string ->
  URL_Path r = "/" +:+ route ->
  Decode (Body r) = inl io_EOF
  /\ exists st',
       ServeHTTP s r st = Returned st'
       /\ StatusCode (st_w st') = 400%Z
       /\ st_user st' = st_user st
       /\ st_log st'
          = st_log st
            ++ (if Enabled (logger s) LDebug
                then ["DEBUG " +:+ Method r +:+ " " +:+ URL_Path r +:+ " "
                      +:+ data (Body r) +:+ str newline]
                else [])
            ++ (if Enabled (logger s) LError
                then ["ERROR Failed to decode " +:+ route +:+ " request body: EOF"]
                else []).
Proof.
  intros Hnew Huri Hread Hspace Hw Hin Hpath.
  destruct (New_inv _ _ _ _ _ _ _ Hnew) as (p & i & _ & _ & _ & _ & _ & _ & Hh).
  assert (Hdec : Decode (Body r) = inl io_EOF).
  { unfold Decode. now rewrite Hread, (readValue_spaces _ Hspace). }
  split; [exact Hdec|].
  simpl in Hin. destruct Hin as [<- | [<- | [<- | []]]].
  - rewrite (ServeHTTP_start s r st Hh Huri Hpath).
    rewrite (withRequestLogging_readable s _ r st Hread).
    rewrite (startHandler_failed s r _ io_EOF Hdec).
    eexists. split; [reflexivity|]. simpl. rewrite Hw.
    split; [reflexivity|]. split; [reflexivity|]. now rewrite <- app_assoc.
  - rewrite (ServeHTTP_end s r st Hh Huri Hpath).
    rewrite (withRequestLogging_readable s _ r st Hread).
    rewrite (endHandler_failed s r _ io_EOF Hdec).
    eexists. split; [reflexivity|]. simpl. rewrite Hw.
    split; [reflexivity|]. split; [reflexivity|]. now rewrite <- app_assoc.
  - rewrite (ServeHTTP_move s r st Hh Huri Hpath).
    rewrite (withRequestLogging_readable s _ r st Hread).
    rewrite (moveHandler_failed s r _ io_EOF Hdec).
    eexists. split; [reflexivity|]. simpl. rewrite Hw.
    split; [reflexivity|]. split; [reflexivity|]. now rewrite <- app_assoc.
Qed.

(** X12.  The debug level changes what a request gets when the read of its
    body fails after a complete first value: without the debug bit the
    handler's decoder has its value before it meets the failure and the
    start route answers 200; with the debug bit the middleware reads the
    whole body first, meets the failure, and answers 400 without calling
    the handler. *)
Theorem failed_read_depends_on_debug (port : string) (infoPtr : option positive)
    (loggerOpts : Z)
    (mf : option GameState -> Logger -> U -> MoveResponse * GameState * list string * U)
    (heap heap' : gmap positive InfoResponse) s r st (e : error) (n : nat)
    (state : GameState) :
  New port infoPtr loggerOpts mf heap = Some (s, heap') ->
  RequestURI r <> "*"%string ->
  URL_Path r = "/start"%string ->
  readErr (Body r) = Some e ->
  scanValue scanner_reset (data (Body r)) 0 = ScanDone n ->
  unmarshal (substring 0 n (data (Body r))) = inr (Some state) ->
  st_w st = httptest_NewRecorder ->
  StatusCode (st_w (stateOf (ServeHTTP s r st)))
  = if Enabled (logger s) LDebug then 400%Z else 200%Z.
Proof.
  intros Hnew Huri Hpath Hread Hscan Hun Hw.
  destruct (New_inv _ _ _ _ _ _ _ Hnew) as (p & i & _ & _ & _ & _ & _ & _ & Hh).
  rewrite (ServeHTTP_start s r st Hh Huri Hpath).
  destruct (Enabled (logger s) LDebug) eqn:Hd.
  - rewrite (withRequestLogging_failed s _ r st e Hd Hread). simpl. now rewrite Hw.
  - rewrite (withRequestLogging_off s _ Hd).
    assert (Hdec : Decode (Body r) = inr (Some state)).
    { unfold Decode, readValue. now rewrite Hscan. }
    rewrite (startHandler_decoded s r st state Hdec). simpl. now rewrite Hw.
Qed.

(** X13.  The status 500 of the index handler's failure branch does not
    reach the client.  The encoder's write is what fails there, and a write
    sends the header first (with status 200 when none was sent before), so
    the call of [WriteHeader] that follows comes too late: on a writer
    whose writes fail the handler returns with the status the response
    already had, 200 on a fresh response, the body as it was, and one call
    of [Err], which adds the error entry when the error bit is set. *)
Theorem index_encode_failure s r st (e : error) :
  URL_Path r = "/"%string ->
  writeErr (st_w st) = Some e ->
  exists st',
    indexHandler s r st = Returned st'
    /\ StatusCode (st_w st') = StatusCode (st_w st)
    /\ wroteHeader (st_w st') = true
    /\ body (st_w st') = body (st_w st)
    /\ st_user st' = st_user st
    /\ st_log st'
       = st_log st ++ (if Enabled (logger s) LError
                       then ["ERROR Failed to encode index response: " +:+ Error e]
                       else []).
Proof.
  intros Hpath He. unfold indexHandler. rewrite Hpath. simpl.
  unfold Encode, Write, WriteHeader, StatusCode. simpl.
  destruct (wroteHeader (st_w st)) eqn:Hw; simpl; rewrite He; simpl; rewrite ?Hw; simpl;
    (eexists; split; [reflexivity|]; simpl; rewrite ?Hw;
     do 4 (split; [reflexivity|]);
     rewrite Err_spec; destruct (Enabled (logger s) LError); [|now rewrite app_nil_r];
     simpl; now rewrite append_nil_r).
Qed.

(** ** What the logger options do not change *)

(** X14.  The logger options change the log only: two servers constructed
    over the same info record with the same move function and different
    options answer a request whose body can be read in the same way (the
    same status, headers and body, the same state of the caller, a panic
    for the same requests), provided the move function's own answer does
    not depend on the logger it is handed.  The log the request starts from
    does not matter either. *)
Theorem response_independent_of_loggerOpts (port1 port2 : string)
    (infoPtr : option positive) (opts1 opts2 : Z)
    (mf : option GameState -> Logger -> U -> MoveResponse * GameState * list string * U)
    (heap heap1 heap2 : gmap positive InfoResponse) (s1 s2 : BattlesnakeServer) r st
    (out : list string) :
  New port1 infoPtr opts1 mf heap = Some (s1, heap1) ->
  New port2 infoPtr opts2 mf heap = Some (s2, heap2) ->
  readErr (Body r) = None ->
  (forall state l1 l2 u,
     fst (fst (fst (mf state l1 u))) = fst (fst (fst (mf state l2 u)))
     /\ snd (mf state l1 u) = snd (mf state l2 u)) ->
  effects (ServeHTTP s1 r st) = effects (ServeHTTP s2 r (setLog out st)).
Proof.
  intros Hnew1 Hnew2 Hread Hmf.
  destruct (New_inv _ _ _ _ _ _ _ Hnew1) as (p1 & i1 & Hp1 & _ & _ & Hi1 & _ & Hm1 & Hh1).
  destruct (New_inv _ _ _ _ _ _ _ Hnew2) as (p2 & i2 & Hp2 & _ & _ & Hi2 & _ & Hm2 & Hh2).
  assert (Hinfo : info s1 = info s2) by congruence.
  assert (Hindex : forall o1 o2,
            effects (indexHandler s1 r (setLog o1 st))
            = effects (indexHandler s2 r (setLog o2 st))).
  { intros o1 o2. unfold indexHandler. simpl. rewrite Hinfo.
    destruct (negb _); [reflexivity|]. destruct (Encode _ _) as [[e|] w]; reflexivity. }
  rewrite (ServeHTTP_unfold s1 r st Hh1), (ServeHTTP_unfold s2 r (setLog out st) Hh2).
  destruct (String.eqb (RequestURI r) "*"); [reflexivity|].
  destruct (negb _ && negb _); [reflexivity|].
  rewrite !(withRequestLogging_readable s1 _ r st Hread).
  rewrite !(withRequestLogging_readable s2 _ r (setLog out st) Hread).
  simpl st_log. change (setLog ?a (setLog ?b st)) with (setLog a st).
  destruct (String.eqb "/" (URL_Path r)); [apply Hindex|].
  destruct (String.eqb "/start" (URL_Path r)).
  { unfold startHandler. now destruct (Decode (Body r)) as [e|[state|]]. }
  destruct (String.eqb "/end" (URL_Path r)).
  { unfold endHandler. now destruct (Decode (Body r)) as [e|[state|]]. }
  destruct (String.eqb "/move" (URL_Path r)).
  { unfold moveHandler. destruct (Decode (Body r)) as [e|state]; [reflexivity|].
    simpl st_user. rewrite Hm1, Hm2.
    destruct (Hmf state (logger s1) (logger s2) (st_user st)) as [Hresp Hu].
    destruct (mf state (logger s1) (st_user st)) as [[[resp1 after1] lines1] u1].
    destruct (mf state (logger s2) (st_user st)) as [[[resp2 after2] lines2] u2].
    simpl in Hresp, Hu. subst resp2 u2. simpl.
    destruct (Encode _ _) as [[e|] w]; [reflexivity|].
    destruct state; reflexivity. }
  destruct (hasPrefix (URL_Path r) "/"); [apply Hindex | reflexivity].
Qed.

(** X15.  A path that is not registered and starts with a slash is served
    by the index route, so it passes the request logging like a registered
    one and the index handler refuses it: the answer is the status 404
    alone, with no header and an empty body, the move function is not
    invoked, and the only entry logged is the debug entry of the request
    when the debug level is enabled. *)
Theorem unknown_path_bare_not_found (port : string) (infoPtr : option positive)
    (loggerOpts : Z)
    (mf : option GameState -> Logger -> U -> MoveResponse * GameState * list string * U)
    (heap heap' : gmap positive InfoResponse) s r st :
  New port infoPtr loggerOpts mf heap = Some (s, heap') ->
  RequestURI r <> "*"%string ->
  ~ In (URL_Path r) ["/"; "/start"; "/end"; "/move"]%string ->
  hasPrefix (URL_Path r) "/" = true ->
  Method r = "CONNECT"%string \/ cleanPath (URL_Path r) = URL_Path r ->
  readErr (Body r) = None ->
  st_w st = httptest_NewRecorder ->
  exists st',
    ServeHTTP s r st = Returned st'
    /\ StatusCode (st_w st') = 404%Z
    /\ body (st_w st') = ""%string
    /\ ResponseHeader (st_w st') = ∅
    /\ st_user st' = st_user st
    /\ st_log st'
       = st_log st
         ++ (if Enabled (logger s) LDebug
             then ["DEBUG " +:+ Method r +:+ " " +:+ URL_Path r +:+ " "
                   +:+ data (Body r) +:+ str newline]
             else []).
Proof.
  intros Hnew Huri Hnot Hslash Hclean Hread Hw.
  destruct (New_inv _ _ _ _ _ _ _ Hnew) as (p & i & _ & _ & _ & _ & _ & _ & Hh).
  assert (Hne : forall x, In x ["/"; "/start"; "/end"; "/move"]%string ->
                          String.eqb x (URL_Path r) = false).
  { intros x Hx. destruct (String.eqb_spec x (URL_Path r)) as [E|]; [|reflexivity].
    rewrite <- E in Hnot. contradiction. }
  assert (Hp : URL_Path r <> "/"%string) by (intros E; apply Hnot; rewrite E; now left).
  rewrite (ServeHTTP_unfold s r st Hh).
  destruct (String.eqb_spec (RequestURI r) "*") as [E|_]; [contradiction|].
  assert (Hred : negb (String.eqb (Method r) "CONNECT")
                 && negb (String.eqb (cleanPath (URL_Path r)) (URL_Path r)) = false).
  { destruct Hclean as [-> | ->]; [reflexivity|].
    rewrite String.eqb_refl. apply andb_false_r. }
  rewrite Hred, !Hne, Hslash by (simpl; tauto).
  rewrite (withRequestLogging_readable s _ r st Hread).
  rewrite indexHandler_other by exact Hp.
  eexists. split; [reflexivity|]. simpl. rewrite Hw. repeat split.
Qed.

End Facts.

(** * The claims at sample inputs *)

Lemma start_end_decoded_witness :
  exists s heap',
    sampleNew LDefault = Some (s, heap')
    /\ @Decode sampleEnv (Body (http_NewRequest "POST" "/start" sampleBody))
       = inr (Some sampleState)
    /\ exists st',
         ServeHTTP s (http_NewRequest "POST" "/start" sampleBody)
           (sampleStart httptest_NewRecorder heap') = Returned st'
         /\ StatusCode (st_w st') = 200%Z /\ body (st_w st') = ""%string
         /\ st_log st' = ["INFO Game ID g1 [Turn 3] Snake ID me - Start"%string].
Proof.
  do 2 eexists. split; [reflexivity|]. split; [reflexivity|].
  refine (proj1 (@start_end_decoded sampleEnv "0" (Some 1%positive) LDefault moveUp sampleHeap
                   _ _ (http_NewRequest "POST" "/start" sampleBody)
                   (sampleStart httptest_NewRecorder _) sampleState "Start"
                   eq_refl _ eq_refl eq_refl (or_introl (conj eq_refl eq_refl)))
            (or_intror eq_refl)).
  discriminate.
Defined.


Lemma decode_failure_bad_request_witness :
  exists s heap',
    sampleNew LDefault = Some (s, heap')
    /\ @Decode sampleEnv (Body (http_NewRequest "POST" "/start" "{invalid}"))
       = inl (SyntaxError "invalid character 'i' looking for beginning of object key string")
    /\ exists st',
         ServeHTTP s (http_NewRequest "POST" "/start" "{invalid}")
           (sampleStart httptest_NewRecorder heap') = Returned st'
         /\ StatusCode (st_w st') = 400%Z
         /\ st_user st' = 0%nat
         /\ st_log st'
            = ["ERROR Failed to decode start request body: "
               +:+ "invalid character 'i' looking for beginning of object key string"].
Proof.
  do 2 eexists. split; [reflexivity|]. split; [reflexivity|].
  assert (Huri : ""%string <> "*"%string) by discriminate.
  assert (Hin : In "start"%string ["start"; "end"; "move"]%string) by (simpl; tauto).
  match goal with
  | |- context [ServeHTTP ?s ?r ?st] =>
      destruct (proj1 (@decode_failure_bad_request sampleEnv "0" (Some 1%positive) LDefault
                         moveUp sampleHeap _ s r st
                         (SyntaxError
                            "invalid character 'i' looking for beginning of object key string")
                         "start" eq_refl Huri eq_refl eq_refl Hin eq_refl))
        as (st' & Hs & Hc & Hu & Hlog & _)
  end.
  exists st'. split; [exact Hs|]. split; [exact Hc|]. split; [exact Hu|].
  exact (Hlog (or_intror eq_refl)).
Defined.

Lemma New_forces_apiVersion_witness :
  sampleHeap !! 1%positive = Some sampleInfo
  /\ APIVersion sampleInfo = "7"%string
  /\ exists s,
       sampleNew 0
       = Some (s, <[1%positive :=
                      mkInfoResponse "1" "foo" "#000000" "default" "default" "9.9"]> sampleHeap)
       /\ exists st',
            ServeHTTP s (http_NewRequest "GET" "/" "")
              (sampleStart httptest_NewRecorder
                 (<[1%positive :=
                      mkInfoResponse "1" "foo" "#000000" "default" "default" "9.9"]> sampleHeap))
            = Returned st'
            /\ StatusCode (st_w st') = 200%Z
            /\ Header_Get (ResponseHeader (st_w st')) "content-type" = "application/json"%string
            /\ body (st_w st')
               = "{" +:+ quoted "apiversion" +:+ ":" +:+ quoted "1"
                 +:+ "," +:+ quoted "author" +:+ ":" +:+ quoted "foo"
                 +:+ "," +:+ quoted "color" +:+ ":" +:+ quoted "#000000"
                 +:+ "," +:+ quoted "head" +:+ ":" +:+ quoted "default"
                 +:+ "," +:+ quoted "tail" +:+ ":" +:+ quoted "default"
                 +:+ "," +:+ quoted "version" +:+ ":" +:+ quoted "9.9" +:+ "}"
                 +:+ str newline.
Proof.
  split; [reflexivity|]. split; [reflexivity|].
  destruct (@New_forces_apiVersion sampleEnv "0" 1%positive 0 moveUp sampleHeap sampleInfo
              eq_refl) as (s & Hnew & Hcell & _ & Hget).
  exists s. split; [exact Hnew|].
  refine (Hget (http_NewRequest "GET" "/" "") (sampleStart httptest_NewRecorder _)
            Hcell eq_refl eq_refl _ eq_refl).
  discriminate.
Defined.

Lemma routing_by_path_only_witness :
  exists s heap',
    sampleNew 0 = Some (s, heap')
    /\ ~ In "/does-not-exist"%string ["/"; "/start"; "/end"; "/move"]%string
    /\ cleanPath "/does-not-exist" = "/does-not-exist"%string
    /\ StatusCode (st_w (stateOf (ServeHTTP s (http_NewRequest "GET" "/does-not-exist" "")
                                    (sampleStart httptest_NewRecorder heap')))) = 404%Z.
Proof.
  do 2 eexists. split; [reflexivity|].
  assert (Hnot : ~ In "/does-not-exist"%string ["/"; "/start"; "/end"; "/move"]%string).
  { simpl. intros [E | [E | [E | [E | []]]]]; discriminate E. }
  split; [exact Hnot|]. split; [reflexivity|].
  refine (proj2 (proj2 (proj2 (proj2
            (@routing_by_path_only sampleEnv "0" (Some 1%positive) 0 moveUp sampleHeap _ _
               (http_NewRequest "GET" "/does-not-exist" "")
               (sampleStart httptest_NewRecorder _) eq_refl _))))
            Hnot (or_intror eq_refl) (or_introl eq_refl) eq_refl).
  discriminate.
Defined.

Lemma withRequestLogging_debug_off_witness :
  exists s heap',
    sampleNew LDefault = Some (s, heap')
    /\ Z.land (opts (logger s)) LDebug = 0%Z
    /\ withRequestLogging s (startHandler s) = startHandler s.
Proof.
  do 2 eexists. split; [reflexivity|]. split; [reflexivity|].
  match goal with
  | |- withRequestLogging ?s ?next = _ =>
      exact (proj1 (@withRequestLogging_debug_off sampleEnv s next eq_refl))
  end.
Defined.

Lemma withRequestLogging_debug_on_witness :
  exists s heap',
    sampleNew LDebug = Some (s, heap')
    /\ Z.land (opts (logger s)) LDebug <> 0%Z
    /\ data (snd (io_ReadAll (Body (http_NewRequest "POST" "/start" "{invalid}")))) = ""%string
    /\ exists entries,
         st_log (stateOf (withRequestLogging s (startHandler s)
                            (http_NewRequest "POST" "/start" "{invalid}")
                            (sampleStart httptest_NewRecorder heap')))
         = [] ++ ["DEBUG POST /start {invalid}" +:+ str newline] ++ entries.
Proof.
  do 2 eexists. split; [reflexivity|].
  assert (Hm : Z.land 8 LDebug <> 0%Z) by discriminate.
  split; [exact Hm|].
  match goal with
  | |- context [withRequestLogging ?s (startHandler ?s) ?r ?st] =>
      destruct (proj2 (@withRequestLogging_debug_on sampleEnv s (startHandler s) r st Hm)
                  eq_refl)
        as (_ & Hrest & _ & _ & _ & _ & _ & _ & Hlog)
  end.
  split; [exact Hrest|]. apply Hlog. simpl. tauto.
Defined.

Lemma response_independent_of_method_witness :
  exists s heap',
    sampleNew LDefault = Some (s, heap')
    /\ In "/start"%string ["/"; "/start"; "/end"; "/move"]%string
    /\ let w1 := st_w (stateOf (ServeHTTP s (http_NewRequest "GET" "/start" sampleBody)
                                  (sampleStart httptest_NewRecorder heap'))) in
       let w2 := st_w (stateOf (ServeHTTP s (http_NewRequest "POST" "/start" sampleBody)
                                  (sampleStart httptest_NewRecorder heap'))) in
       StatusCode w1 = StatusCode w2
       /\ ResponseHeader w1 = ResponseHeader w2
       /\ body w1 = body w2.
Proof.
  do 2 eexists. split; [reflexivity|].
  assert (Hin : In "/start"%string ["/"; "/start"; "/end"; "/move"]%string)
    by (simpl; tauto).
  split; [exact Hin|].
  exact (@response_independent_of_method sampleEnv "0" (Some 1%positive) LDefault moveUp
           sampleHeap _ _ (http_NewRequest "" "/start" sampleBody)
           (sampleStart httptest_NewRecorder _) "GET" "POST" eq_refl Hin).
Defined.

Lemma loggerOpts_zero_silent_witness :
  exists s heap',
    sampleNew 0 = Some (s, heap')
    /\ logger s = NewLogger 0
    /\ Enabled (NewLogger 0) LError = false
    /\ exists lines,
         st_log (stateOf (ServeHTTP s (http_NewRequest "POST" "/move" "{invalid}")
                            (sampleStart httptest_NewRecorder heap')))
         = [] ++ lines
         /\ (lines = []
             \/ exists state, lines = snd (fst (moveUp state (NewLogger 0) 0%nat))).
Proof.
  do 2 eexists. split; [reflexivity|].
  match goal with
  | |- context [ServeHTTP ?s ?r ?st] =>
      destruct (@loggerOpts_zero_silent sampleEnv "0" (Some 1%positive) moveUp sampleHeap _
                  s r st "" [] [] LError eq_refl)
        as (Hl & _ & _ & _ & _ & He & Hlog)
  end.
  split; [exact Hl|]. split; [exact He|]. exact Hlog.
Defined.

(** ** Where the claims as stated fail *)


(** C2 as stated fails at two inputs.  With the mask 0 a start request
    whose body is no JSON is answered with status 400 and no error entry is
    logged.  And a body that is not valid JSON as a whole is decoded
    without an error when it begins with a JSON value that fits: the
    decoder reads one value from the stream and leaves the rest. *)
Lemma decode_claim_counterexample :
  json_Valid "{invalid}" = false
  /\ sampleServe 0 httptest_NewRecorder (http_NewRequest "POST" "/start" "{invalid}")
     = Some (400%Z, ""%string, ""%string, [], 0%nat)
  /\ json_Valid "{}x" = false
  /\ sampleServe LDefault httptest_NewRecorder (http_NewRequest "POST" "/start" "{}x")
     = Some (200%Z, ""%string, ""%string,
             ["INFO Game ID  [Turn 0] Snake ID  - Start"%string], 0%nat)
  /\ 200%Z <> 400%Z.
Proof. repeat (split; [reflexivity|]). discriminate. Qed.

(** C4 as stated fails with the mask 0: a start and an end request with a
    valid body are answered with status 200 and an empty body, and no info
    entry is logged.  It fails with the debug bit set as well, for a body
    that decodes to a game state and whose read fails after it: the answer
    has status 400 and no info entry is logged. *)
Lemma start_end_claim_counterexample :
  @Decode sampleEnv (bytes_NewBuffer sampleBody) = inr (Some sampleState)
  /\ sampleServe 0 httptest_NewRecorder (http_NewRequest "POST" "/start" sampleBody)
     = Some (200%Z, ""%string, ""%string, [], 0%nat)
  /\ sampleServe 0 httptest_NewRecorder (http_NewRequest "POST" "/end" sampleBody)
     = Some (200%Z, ""%string, ""%string, [], 0%nat)
  /\ @Decode sampleEnv (Body (sampleCutRequest "/start")) = inr (Some sampleState)
  /\ sampleServe (Z.lor LDefault LDebug) httptest_NewRecorder (sampleCutRequest "/start")
     = Some (400%Z, ""%string, ""%string,
             ["ERROR Failed to read request body: unexpected EOF"%string], 0%nat).
Proof. repeat split; reflexivity. Qed.

(** C5 as stated fails on the other registered paths: a GET to /start is
    answered by the start handler, with status 400 when it has no body and
    with status 200 when its body is a game state, not with status 404. *)
Lemma not_found_claim_counterexample :
  sampleServe 0 httptest_NewRecorder (http_NewRequest "GET" "/start" "")
  = Some (400%Z, ""%string, ""%string, [], 0%nat)
  /\ sampleServe 0 httptest_NewRecorder (http_NewRequest "GET" "/start" sampleBody)
     = Some (200%Z, ""%string, ""%string, [], 0%nat)
  /\ ~ (forall r : Request,
          Method r = "GET"%string -> URL_Path r <> "/"%string ->
          option_map (fun o => fst (fst (fst (fst o)))) (sampleServe 0 httptest_NewRecorder r)
          = Some 404%Z).
Proof.
  split; [reflexivity|]. split; [reflexivity|].
  intros Hall.
  specialize (Hall (http_NewRequest "GET" "/start" "") eq_refl).
  assert (Hne : URL_Path (http_NewRequest "GET" "/start" "") <> "/"%string) by discriminate.
  specialize (Hall Hne). discriminate Hall.
Qed.

(** ** The scenarios of the package's tests *)

Example test_IndexHandler :
  sampleServe 0 httptest_NewRecorder (http_NewRequest "GET" "/" "")
  = Some (200%Z, "application/json"%string,
          "{" +:+ quoted "apiversion" +:+ ":" +:+ quoted "1"
          +:+ "," +:+ quoted "author" +:+ ":" +:+ quoted "foo"
          +:+ "," +:+ quoted "color" +:+ ":" +:+ quoted "#000000"
          +:+ "," +:+ quoted "head" +:+ ":" +:+ quoted "default"
          +:+ "," +:+ quoted "tail" +:+ ":" +:+ quoted "default"
          +:+ "," +:+ quoted "version" +:+ ":" +:+ quoted "9.9" +:+ "}"
          +:+ str newline,
          [], 0%nat).
Proof. reflexivity. Qed.

Example test_MoveHandler :
  sampleServe 0 httptest_NewRecorder (http_NewRequest "POST" "/move" "{}")
  = Some (200%Z, "application/json"%string,
          "{" +:+ quoted "move" +:+ ":" +:+ quoted "up" +:+ ","
          +:+ quoted "shout" +:+ ":" +:+ quoted "Hi!" +:+ "}" +:+ str newline,
          [], 1%nat).
Proof. reflexivity. Qed.

Example test_MoveHandlerBadRequest :
  sampleServe 0 httptest_NewRecorder (http_NewRequest "POST" "/move" "{invalid}{}")
  = Some (400%Z, ""%string, ""%string, [], 0%nat).
Proof. reflexivity. Qed.

Example test_DebugRequestLogging :
  sampleServe LDebug httptest_NewRecorder (http_NewRequest "POST" "/start" "{}")
  = Some (200%Z, ""%string, ""%string, ["DEBUG POST /start {}" +:+ str newline], 0%nat).
Proof. reflexivity. Qed.

Example test_InvalidURL :
  sampleServe 0 httptest_NewRecorder (http_NewRequest "GET" "/does-not-exist" "")
  = Some (404%Z, ""%string, ""%string, [], 0%nat).
Proof. reflexivity. Qed.

(** A body that is the literal [null] decodes to a nil state: the start
    handler panics when it reads the game ID through it. *)
Example start_null_panics :
  exists s heap',
    sampleNew LDefault = Some (s, heap')
    /\ fst (fst (fst (effects (ServeHTTP s (http_NewRequest "POST" "/start" "null")
                                 (sampleStart httptest_NewRecorder heap'))))) = true.
Proof. do 2 eexists. split; reflexivity. Qed.

(** A request that is not in origin form is redirected to its cleaned
    path, and an unclean path on a CONNECT request is not. *)
Example unclean_path_redirected :
  exists s heap',
    sampleNew 0 = Some (s, heap')
    /\ @mux_Handler sampleEnv (Handler s) (http_NewRequest "GET" "/a/../start" "")
       = RouteRedirect "/start"
    /\ @mux_Handler sampleEnv (Handler s) (http_NewRequest "CONNECT" "/a/../start" "")
       = RouteHandler (withRequestLogging s (indexHandler s)).
Proof. do 2 eexists. split; [reflexivity|]. split; reflexivity. Qed.

Lemma Decode_leaves_rest_witness :
  scanValue scanner_reset "{}" 0 = ScanDone 2
  /\ @Decode sampleEnv (mkReadCloser ("{}" +:+ "x") (Some io_ErrUnexpectedEOF))
     = inr (Some zeroGameState)
  /\ json_Valid ("{}" +:+ "x") = false.
Proof.
  split; [reflexivity|]. split; [|reflexivity].
  exact (proj1 (@Decode_leaves_rest sampleEnv "{}" "x" (Some io_ErrUnexpectedEOF) 2
                  (@mkServer sampleEnv [] "0" 1%positive (NewLogger 0) moveUp)
                  (http_NewRequest "POST" "/start" "")
                  (sampleStart httptest_NewRecorder sampleHeap) eq_refl)).
Defined.

Lemma nil_state_panics_witness :
  @Decode sampleEnv (Body (http_NewRequest "POST" "/start" "null")) = inr None
  /\ @startHandler sampleEnv (@mkServer sampleEnv [] "0" 1%positive (NewLogger LDefault) moveUp)
       (http_NewRequest "POST" "/start" "null")
       (sampleStart httptest_NewRecorder sampleHeap)
     = Panicked (sampleStart httptest_NewRecorder sampleHeap).
Proof.
  split; [reflexivity|].
  exact (proj1 (@nil_state_panics sampleEnv
                  (@mkServer sampleEnv [] "0" 1%positive (NewLogger LDefault) moveUp)
                  (http_NewRequest "POST" "/start" "null")
                  (sampleStart httptest_NewRecorder sampleHeap)
                  (mkMoveResponse "up" "Hi!") zeroGameState [] 1%nat
                  eq_refl eq_refl eq_refl)).
Defined.

(** ** The further properties at sample inputs *)

Lemma ServeHTTP_log_shape_witness :
  exists s heap',
    sampleNew (Z.lor LDefault LDebug) = Some (s, heap')
    /\ exists d lines f,
         st_log (stateOf (ServeHTTP s (http_NewRequest "POST" "/move" sampleBody)
                            (sampleStart httptest_NewRecorder heap')))
         = [] ++ d ++ lines ++ f
         /\ (d = [] \/ exists entry, d = [entry] /\ hasPrefix entry "DEBUG " = true)
         /\ (lines = []
             \/ exists state, lines = snd (fst (moveFunc s state (logger s) 0%nat)))
         /\ (f = []
             \/ exists entry,
                  f = [entry]
                  /\ (hasPrefix entry "INFO " = true \/ hasPrefix entry "ERROR " = true)).
Proof.
  do 2 eexists. split; [reflexivity|].
  match goal with
  | |- context [ServeHTTP ?s ?r ?st] =>
      exact (@ServeHTTP_log_shape sampleEnv "0" (Some 1%positive) (Z.lor LDefault LDebug)
               moveUp sampleHeap _ s r st eq_refl)
  end.
Defined.

Lemma move_function_only_on_move_witness :
  exists s heap',
    sampleNew LDefault = Some (s, heap')
    /\ "/move/"%string <> "/move"%string
    /\ st_user (stateOf (ServeHTTP s (http_NewRequest "POST" "/move/" sampleBody)
                           (sampleStart httptest_NewRecorder heap'))) = 0%nat.
Proof.
  do 2 eexists. split; [reflexivity|].
  assert (Hp : "/move/"%string <> "/move"%string) by discriminate.
  split; [exact Hp|].
  match goal with
  | |- context [ServeHTTP ?s ?r ?st] =>
      exact (@move_function_only_on_move sampleEnv "0" (Some 1%positive) LDefault moveUp
               sampleHeap _ s r st eq_refl Hp)
  end.
Defined.


Lemma Start_entry_not_gated_witness :
  exists s heap',
    sampleNew 0 = Some (s, heap')
    /\ Start s (inr "[::]:8080"%string) []
       = (None, [] ++ ["START server running at " +:+ "[::]:8080" +:+ "..." +:+ str newline]
                   ++ []).
Proof.
  do 2 eexists. split; [reflexivity|].
  match goal with
  | |- Start ?s _ _ = _ =>
      exact (proj1 (proj2 (@Start_entry_not_gated sampleEnv "0" (Some 1%positive) 0 moveUp
                             sampleHeap _ s io_EOF "[::]:8080" [] eq_refl)))
  end.
Defined.

Lemma New_touches_one_record_witness :
  exists s heap',
    sampleNew LDefault = Some (s, heap')
    /\ info s = 1%positive
    /\ (forall q, q <> info s -> heap' !! q = sampleHeap !! q)
    /\ exists s2,
         @New sampleEnv "8080" (Some (info s)) 0 moveUp heap' = Some (s2, heap')
         /\ info s2 = info s.
Proof.
  do 2 eexists. split; [reflexivity|]. split; [reflexivity|].
  match goal with
  | |- (forall q, q <> info ?s -> _) /\ _ =>
      destruct (@New_touches_one_record sampleEnv "0" (Some 1%positive) LDefault moveUp
                  sampleHeap _ s eq_refl) as (_ & Hother & Hagain & _)
  end.
  split; [exact Hother | exact (Hagain "8080"%string 0%Z moveUp)].
Defined.

Lemma index_serves_current_record_witness :
  exists s heap',
    sampleNew LDefault = Some (s, heap')
    /\ exists st',
         ServeHTTP s (http_NewRequest "GET" "/" "")
           (sampleStart httptest_NewRecorder
              (<[info s := mkInfoResponse "2" "bar" "#ffffff" "bendr" "bolt" "1.0"]> heap'))
         = Returned st'
         /\ StatusCode (st_w st') = 200%Z
         /\ body (st_w st')
            = "{" +:+ member "apiversion" (quoted "2")
              +:+ "," +:+ member "author" (quoted "bar")
              +:+ "," +:+ member "color" (quoted "#ffffff")
              +:+ "," +:+ member "head" (quoted "bendr")
              +:+ "," +:+ member "tail" (quoted "bolt")
              +:+ "," +:+ member "version" (quoted "1.0") +:+ "}"
              +:+ str newline.
Proof.
  do 2 eexists. split; [reflexivity|].
  match goal with
  | |- context [ServeHTTP ?s ?r ?st] =>
      refine (@index_serves_current_record sampleEnv "0" (Some 1%positive) LDefault moveUp
                sampleHeap _ s r st (mkInfoResponse "2" "bar" "#ffffff" "bendr" "bolt" "1.0")
                eq_refl eq_refl eq_refl eq_refl _ eq_refl)
  end.
  simpl. discriminate.
Defined.

Lemma empty_body_bad_request_witness :
  exists s heap',
    sampleNew LDefault = Some (s, heap')
    /\ nonSpace "  " = false
    /\ @Decode sampleEnv (Body (http_NewRequest "POST" "/move" "  ")) = inl io_EOF
    /\ exists st',
         ServeHTTP s (http_NewRequest "POST" "/move" "  ")
           (sampleStart httptest_NewRecorder heap') = Returned st'
         /\ StatusCode (st_w st') = 400%Z
         /\ st_user st' = 0%nat
         /\ st_log st' = ["ERROR Failed to decode move request body: EOF"%string].
Proof.
  do 2 eexists. split; [reflexivity|]. split; [reflexivity|].
  match goal with
  | |- context [ServeHTTP ?s ?r ?st] =>
      destruct (@empty_body_bad_request sampleEnv "0" (Some 1%positive) LDefault moveUp
                  sampleHeap _ s r st "move" eq_refl) as (Hd & st' & Hs & Hc & Hu & Hl);
        [simpl; discriminate | reflexivity | reflexivity | reflexivity
         | simpl; tauto | reflexivity |]
  end.
  split; [exact Hd|]. exists st'. split; [exact Hs|]. split; [exact Hc|].
  split; [exact Hu|]. exact Hl.
Defined.

Lemma failed_read_depends_on_debug_witness :
  exists s heap',
    sampleNew (Z.lor LDefault LDebug) = Some (s, heap')
    /\ scanValue scanner_reset sampleBody 0 = ScanDone (String.length sampleBody)
    /\ StatusCode
         (st_w (stateOf
                  (ServeHTTP s
                     (mkRequest "POST" "/start" "" "" true
                        (mkReadCloser sampleBody (Some io_ErrUnexpectedEOF)))
                     (sampleStart httptest_NewRecorder heap'))))
       = 400%Z.
Proof.
  do 2 eexists. split; [reflexivity|].
  assert (Hscan : scanValue scanner_reset sampleBody 0 = ScanDone (String.length sampleBody))
    by (vm_compute; reflexivity).
  split; [exact Hscan|].
  match goal with
  | |- context [ServeHTTP ?s ?r ?st] =>
      refine (@failed_read_depends_on_debug sampleEnv "0" (Some 1%positive)
                (Z.lor LDefault LDebug) moveUp sampleHeap _ s r st io_ErrUnexpectedEOF
                (String.length sampleBody) sampleState eq_refl _ eq_refl eq_refl Hscan _
                eq_refl)
  end.
  - simpl. discriminate.
  - vm_compute. reflexivity.
Defined.

Lemma index_encode_failure_witness :
  exists st',
    @indexHandler sampleEnv (@mkServer sampleEnv [] "0" 1%positive (NewLogger LDefault) moveUp)
      (http_NewRequest "GET" "/" "") (sampleStart brokenWriter sampleHeap)
    = Returned st'
    /\ StatusCode (st_w st') = 200%Z
    /\ wroteHeader (st_w st') = true
    /\ body (st_w st') = ""%string
    /\ st_user st' = 0%nat
    /\ st_log st' = ["ERROR Failed to encode index response: write: broken pipe"%string].
Proof.
  exact (@index_encode_failure sampleEnv
           (@mkServer sampleEnv [] "0" 1%positive (NewLogger LDefault) moveUp)
           (http_NewRequest "GET" "/" "") (sampleStart brokenWriter sampleHeap)
           (mkError "*net.OpError" "write: broken pipe") eq_refl eq_refl).
Defined.

Lemma response_independent_of_loggerOpts_witness :
  exists s1 s2 heap1 heap2,
    sampleNew 0 = Some (s1, heap1)
    /\ sampleNew (Z.lor LDefault LDebug) = Some (s2, heap2)
    /\ effects (ServeHTTP s1 (http_NewRequest "POST" "/move" sampleBody)
                  (sampleStart httptest_NewRecorder heap1))
       = effects (ServeHTTP s2 (http_NewRequest "POST" "/move" sampleBody)
                    (sampleStart httptest_NewRecorder heap1)).
Proof.
  do 4 eexists. split; [reflexivity|]. split; [reflexivity|].
  match goal with
  | |- effects (ServeHTTP ?s1 ?r ?st) = effects (ServeHTTP ?s2 _ _) =>
      refine (@response_independent_of_loggerOpts sampleEnv "0" "0" (Some 1%positive) 0
                (Z.lor LDefault LDebug) moveUp sampleHeap _ _ s1 s2 r st [] eq_refl eq_refl
                eq_refl _)
  end.
  intros state l1 l2 u. split; reflexivity.
Defined.

Lemma unknown_path_bare_not_found_witness :
  exists s heap',
    sampleNew (Z.lor LDefault LDebug) = Some (s, heap')
    /\ ~ In "/foo"%string ["/"; "/start"; "/end"; "/move"]%string
    /\ exists st',
         ServeHTTP s (http_NewRequest "GET" "/foo" "") (sampleStart httptest_NewRecorder heap')
         = Returned st'
         /\ StatusCode (st_w st') = 404%Z
         /\ body (st_w st') = ""%string
         /\ ResponseHeader (st_w st') = ∅
         /\ st_user st' = 0%nat
         /\ st_log st' = ["DEBUG GET /foo " +:+ str newline].
Proof.
  do 2 eexists. split; [reflexivity|].
  assert (Hnot : ~ In "/foo"%string ["/"; "/start"; "/end"; "/move"]%string).
  { unfold not. simpl. intros [E | [E | [E | [E | []]]]]; discriminate E. }
  split; [exact Hnot|].
  match goal with
  | |- context [ServeHTTP ?s ?r ?st] =>
      refine (@unknown_path_bare_not_found sampleEnv "0" (Some 1%positive)
                (Z.lor LDefault LDebug) moveUp sampleHeap _ s r st eq_refl _ Hnot eq_refl
                (or_intror eq_refl) eq_refl eq_refl)
  end.
  simpl. discriminate.
Defined.
